(** * PyELEGANT report GUI: option-set catalog and selection check boxes

    A shallow embedding of the state-carrying parts of
    [pyelegant/guis/nsls2apcluster/gui_genreport.py]:

    - the nested dictionary [MainWindow._calc_opts] and its seeding in
      [_set_default_calc_opt_sets];
    - the renaming step at the end of [open_calc_opt_edit_dialog];
    - [DialogCalcOptMap.update_opt_dict], which writes the dialog's widgets
      back into an option dictionary (including the [remote_opts] block);
    - the include / recalc / replot check boxes and the slots connected to
      their [clicked] signals;
    - [DialogCalcOptXYAper.update_opt_dict], the remote-option part of
      [DialogCalcOptMap.__init__], and the combo boxes that the edit handler
      and [update_nonlin_calc_opts_set_name_selector_comboboxes] refresh;

    and of the module body of [pyelegant/remote.py], which prints a warning
    when no remote module is loaded.

    Python dictionaries whose iteration order the program reads
    ([list(self._calc_opts[calc_type])]) are association lists in insertion
    order; the check boxes, which are looked up by attribute name only, are
    finite maps from the calculation-type name to the checked state.

    The file has three parts: the model (definitions only), the facts
    proved about it, and further facts on the code around them. *)

From Stdlib Require Import ZArith String Ascii List Bool.
From stdpp Require Import base option list gmap strings.

Local Open Scope Z_scope.

(** * Part I: the model *)

(** ** Exceptions and results *)

(** The exceptions the modelled code can raise. *)
Inductive exn : Type :=
| KeyError
| ValueError
| NotImplementedError.

(** Outcome of a Python expression or statement: a value, or a raised
    exception. *)
Inductive result (A : Type) : Type :=
| Ok (a : A)
| Raise (e : exn).

Arguments Ok {A} a.
Arguments Raise {A} e.

#[global] Instance result_ret : MRet result := fun _ a => Ok a.

#[global] Instance result_bind : MBind result := fun _ _ f r =>
  match r with
  | Ok a => f a
  | Raise e => Raise e
  end.

(** [o] when the key is there, [KeyError] otherwise. *)
Definition or_KeyError {A : Type} (o : option A) : result A :=
  match o with
  | Some a => Ok a
  | None => Raise KeyError
  end.

(** A statement on a mutable object of type [S]: it yields a value or raises,
    and leaves the object in a new state. What a statement has written stays
    written when a later one raises. *)
Definition stmt (S A : Type) : Type := S -> result A * S.

#[global] Instance stmt_ret {S : Type} : MRet (stmt S) :=
  fun _ a s => (Ok a, s).

#[global] Instance stmt_bind {S : Type} : MBind (stmt S) := fun _ _ f m s =>
  match m s with
  | (Ok a, s') => f a s'
  | (Raise e, s') => (Raise e, s')
  end.

(** An expression that only reads the object. *)
Definition read {S A : Type} (e : S -> result A) : stmt S A :=
  fun s => (e s, s).

(** A write that cannot fail. *)
Definition write {S : Type} (f : S -> S) : stmt S unit :=
  fun s => (Ok tt, f s).

(** ** Python dictionaries with string keys *)

Module PyDict.

(** Bindings in insertion order. A dictionary built with [dict_set] from
    the empty one never holds a key twice. *)
Definition pydict (A : Type) : Type := list (string * A).

(** [d.get(k)]: the binding of [k], if any. *)
Fixpoint dict_get {A : Type} (d : pydict A) (k : string) : option A :=
  match d with
  | [] => None
  | (k', v) :: d' => if String.eqb k' k then Some v else dict_get d' k
  end.

(** [k in d] *)
Definition dict_mem {A : Type} (d : pydict A) (k : string) : bool :=
  match dict_get d k with
  | Some _ => true
  | None => false
  end.

(** [d[k]] *)
Definition dict_item {A : Type} (d : pydict A) (k : string) : result A :=
  or_KeyError (dict_get d k).

(** [d[k] = v]: an existing key keeps its position, a new key goes to the
    end. *)
Fixpoint dict_set {A : Type} (d : pydict A) (k : string) (v : A) : pydict A :=
  match d with
  | [] => [(k, v)]
  | (k', v') :: d' =>
      if String.eqb k' k then (k', v) :: d'
      else (k', v') :: dict_set d' k v
  end.

(** The bindings of [d] without those of [k]. *)
Fixpoint dict_remove {A : Type} (d : pydict A) (k : string) : pydict A :=
  match d with
  | [] => []
  | (k', v') :: d' =>
      if String.eqb k' k then dict_remove d' k
      else (k', v') :: dict_remove d' k
  end.

(** [del d[k]] *)
Definition dict_del {A : Type} (d : pydict A) (k : string)
  : result (pydict A) :=
  if dict_mem d k then Ok (dict_remove d k) else Raise KeyError.

(** [list(d)] *)
Definition dict_keys {A : Type} (d : pydict A) : list string := map fst d.

(** [d.update(other)] *)
Definition dict_update {A : Type} (d other : pydict A) : pydict A :=
  fold_left (fun acc kv => dict_set acc (fst kv) (snd kv)) other d.

(** The keys of [d] as a set. *)
Definition dict_dom {A : Type} (d : pydict A) : gset string :=
  list_to_set (dict_keys d).

End PyDict.

Import PyDict.

(** ** Values stored in an option dictionary *)

(** A float is only ever stored, copied and compared for identity here, so it
    is kept as the decimal literal that denotes it: [dec m e] stands for the
    double written [m]e[e] (for instance [10e-3] is [dec 10 (-3)]). *)
Record pyfloat : Type := dec { mantissa : Z; exponent10 : Z }.

#[warnings="-register-all"] Inductive value : Type :=
| VInt (n : Z)
| VFloat (x : pyfloat)
| VBool (b : bool)
| VStr (s : string)
| VDict (d : list (string * value)).

(** An option set: parameter name to value. *)
Abbreviation opt_dict := (pydict value).

(** [self._calc_opts]: calculation type to (option-set name to option set). *)
Abbreviation calc_opts := (pydict (pydict opt_dict)).

(** [copy.deepcopy]: values of the model are immutable, so the copy is the
    value itself; what the copy buys in Python (later updates of the copy do
    not reach the original) holds here for every update. *)
Definition deepcopy {A : Type} (a : A) : A := a.

(** The integer stored under [key], if there is one. *)
Definition int_param (d : opt_dict) (key : string) : option Z :=
  match dict_get d key with
  | Some (VInt n) => Some n
  | _ => None
  end.

(** ** The catalog of option sets *)

(** [self.all_nonlin_calc_types] *)
Definition all_nonlin_calc_types : list string :=
  ["xy_aper"; "fmap_xy"; "fmap_px"; "cmap_xy"; "cmap_px"; "tswa";
   "nonlin_chrom"; "mom_aper"].

(** [self._calc_opts[calc_type][name]] *)
Definition get_opt_set (c : calc_opts) (calc_type name : string)
  : result opt_dict :=
  d ← dict_item c calc_type; dict_item d name.

(** [self._calc_opts[calc_type][name] = opts] *)
Definition set_opt_set (calc_type name : string) (opts : opt_dict)
  : stmt calc_opts unit :=
  d ← read (fun c => dict_item c calc_type);
  write (fun c => dict_set c calc_type (dict_set d name opts)).

(** [del self._calc_opts[calc_type][name]] *)
Definition del_opt_set (calc_type name : string) : stmt calc_opts unit :=
  d ← read (fun c => dict_item c calc_type);
  d' ← read (fun _ => dict_del d name);
  write (fun c => dict_set c calc_type d').

(** [self._calc_opts[calc_type][name].update(other)] *)
Definition update_opt_set (calc_type name : string) (other : opt_dict)
  : stmt calc_opts unit :=
  opts ← read (fun c => get_opt_set c calc_type name);
  set_opt_set calc_type name (dict_update opts other).

(** [list(self._calc_opts[calc_type])]: the option-set names of a calculation
    type, in insertion order. *)
Definition avail_set_names (c : calc_opts) (calc_type : string)
  : result (list string) :=
  d ← dict_item c calc_type; Ok (dict_keys d).

(** The literal dictionaries of [_set_default_calc_opt_sets]. *)
Definition xy_aper_production : opt_dict :=
  [("n_turns", VInt 1024);
   ("abs_xmax", VFloat (dec 10 (-3)));
   ("abs_ymax", VFloat (dec 10 (-3)));
   ("ini_ndiv", VInt 51);
   ("n_lines", VInt 21);
   ("neg_y_search", VBool false)].

Definition fmap_xy_production : opt_dict :=
  [("n_turns", VInt 1024);
   ("xmin", VFloat (dec (-10) (-3)));
   ("xmax", VFloat (dec 10 (-3)));
   ("ymin", VFloat (dec 0 0));
   ("ymax", VFloat (dec 5 (-3)));
   ("nx", VInt 201);
   ("ny", VInt 201);
   ("x_offset", VFloat (dec 1 (-6)));
   ("y_offset", VFloat (dec 1 (-6)));
   ("delta_offset", VFloat (dec 0 0))].

Definition fmap_px_production : opt_dict :=
  [("n_turns", VInt 1024);
   ("delta_min", VFloat (dec (-5) (-2)));
   ("delta_max", VFloat (dec 5 (-2)));
   ("xmin", VFloat (dec (-10) (-3)));
   ("xmax", VFloat (dec 10 (-3)));
   ("ndelta", VInt 201);
   ("nx", VInt 201);
   ("x_offset", VFloat (dec 1 (-6)));
   ("y_offset", VFloat (dec 1 (-6)));
   ("delta_offset", VFloat (dec 0 0))].

Definition tswa_production : opt_dict :=
  [("n_turns", VInt 1024);
   ("abs_xmax", VFloat (dec 5 (-3)));
   ("nx", VInt 50);
   ("abs_ymax", VFloat (dec 3 (-3)));
   ("ny", VInt 50);
   ("x_offset", VFloat (dec 1 (-6)));
   ("y_offset", VFloat (dec 1 (-6)));
   ("remote_opts", VDict [("partition", VStr "short");
                          ("time", VStr "30:00")])].

Definition nonlin_chrom_production : opt_dict :=
  [("n_turns", VInt 1024);
   ("delta_min", VFloat (dec (-3) (-2)));
   ("delta_max", VFloat (dec 3 (-2)));
   ("ndelta", VInt 100);
   ("x_offset", VFloat (dec 1 (-6)));
   ("y_offset", VFloat (dec 1 (-6)));
   ("delta_offset", VFloat (dec 0 0));
   ("remote_opts", VDict [("partition", VStr "short");
                          ("time", VStr "30:00")]);
   ("save_fft", VBool false)].

Definition mom_aper_production : opt_dict :=
  [("n_turns", VInt 1024);
   ("x_initial", VFloat (dec 10 (-6)));
   ("y_initial", VFloat (dec 10 (-6)));
   ("delta_negative_start", VFloat (dec (-1) (-3)));
   ("delta_negative_limit", VFloat (dec (-5) (-2)));
   ("delta_positive_start", VFloat (dec 1 (-3)));
   ("delta_positive_limit", VFloat (dec 5 (-2)));
   ("init_delta_step_size", VFloat (dec 5 (-3)));
   ("include_name_pattern", VStr "[QSO]*")].

(** [d = self._calc_opts[calc_type] = dict(production=opts)]: the local [d]
    of the source stays an alias of the catalog entry, so the statements on
    [d] that follow are statements on [self._calc_opts[calc_type]]. *)
Definition set_production (calc_type : string) (opts : opt_dict)
  : stmt calc_opts unit :=
  write (fun c => dict_set c calc_type [("production", opts)]).

(** [d['test'] = deepcopy(self._calc_opts[src][name]); d['test'].update(other)]
    with [d] the entry of [calc_type]. *)
Definition add_test_from (calc_type src name : string) (other : opt_dict)
  : stmt calc_opts unit :=
  opts ← read (fun c => get_opt_set c src name);
  set_opt_set calc_type "test" (deepcopy opts);;
  update_opt_set calc_type "test" other.

(** [MainWindow._set_default_calc_opt_sets] *)
Definition _set_default_calc_opt_sets : stmt calc_opts unit :=
  write (fun _ =>
    fold_left (fun acc k => dict_set acc k []) all_nonlin_calc_types []);;
  set_production "xy_aper" xy_aper_production;;
  add_test_from "xy_aper" "xy_aper" "production" [("n_turns", VInt 128)];;
  set_production "fmap_xy" fmap_xy_production;;
  add_test_from "fmap_xy" "fmap_xy" "production"
    [("nx", VInt 21); ("ny", VInt 21)];;
  set_production "fmap_px" fmap_px_production;;
  add_test_from "fmap_px" "fmap_px" "production"
    [("nx", VInt 21); ("ny", VInt 21)];;
  p ← read (fun c => get_opt_set c "fmap_xy" "production");
  set_production "cmap_xy" (deepcopy p);;
  add_test_from "cmap_xy" "fmap_xy" "test" [("n_turns", VInt 128)];;
  p ← read (fun c => get_opt_set c "fmap_px" "production");
  set_production "cmap_px" (deepcopy p);;
  add_test_from "cmap_px" "fmap_px" "test" [("n_turns", VInt 128)];;
  set_production "tswa" tswa_production;;
  set_production "nonlin_chrom" nonlin_chrom_production;;
  set_production "mom_aper" mom_aper_production;;
  add_test_from "mom_aper" "mom_aper" "production"
    [("n_turns", VInt 16); ("include_name_pattern", VStr "O*")].

(** The catalog of a main window that has just been constructed. *)
Definition default_calc_opts : calc_opts := snd (_set_default_calc_opt_sets []).

(** ** Renaming an option set *)

(** [old_new_opt_set_names = dict(old=opt_set_name, new=None)]: the dialog
    leaves [None] under ['new'] when it is cancelled and the text of its name
    field when it is accepted. Below, [old] is the entry ['old'] and [new]
    the entry ['new'] after [dialog.exec_()]. *)
Definition accepted (new : option string) : bool :=
  match new with
  | None => false
  | Some _ => true
  end.

(** [old_new_opt_set_names['old'] != old_new_opt_set_names['new']] *)
Definition names_differ (old : string) (new : option string) : bool :=
  match new with
  | None => true
  | Some n => negb (String.eqb old n)
  end.

(** The condition of the [if] that guards the renaming. *)
Definition rename_taken (old : string) (new : option string) : bool :=
  accepted new && names_differ old new.

(** The renaming step of [open_calc_opt_edit_dialog]:
<<
    if accepted and (names['old'] != names['new']):
        self._calc_opts[calc_type][names['new']] = \
            self._calc_opts[calc_type][names['old']]
        del self._calc_opts[calc_type][names['old']]
>>
    The right-hand side of the assignment is evaluated first. The statements
    after these two only refresh combo boxes. *)
Definition rename_opt_set (calc_type old : string) (new : option string)
  : stmt calc_opts unit :=
  match new with
  | Some n =>
      if rename_taken old new then
        opts ← read (fun c => get_opt_set c calc_type old);
        set_opt_set calc_type n opts;;
        del_opt_set calc_type old
      else mret tt
  | None => mret tt
  end.

(** The dialog class that [open_calc_opt_edit_dialog] opens for a calculation
    type. *)
Inductive dialog_class : Type :=
| DialogCalcOptXYAper
| DialogCalcOptMap_xy
| DialogCalcOptMap_px.

Definition dialog_for (calc_type : string) : result dialog_class :=
  if String.eqb calc_type "xy_aper" then Ok DialogCalcOptXYAper
  else if String.eqb calc_type "fmap_xy" || String.eqb calc_type "cmap_xy"
  then Ok DialogCalcOptMap_xy
  else if String.eqb calc_type "fmap_px" || String.eqb calc_type "cmap_px"
  then Ok DialogCalcOptMap_px
  else if String.eqb calc_type "tswa" then Raise NotImplementedError
  else if String.eqb calc_type "nonlin_chrom" then Raise NotImplementedError
  else if String.eqb calc_type "mom_aper" then Raise NotImplementedError
  else Raise ValueError.

(** The keys of the option set that the constructor of a dialog subscripts
    ([opt_dict['n_turns']], ...), in the order in which it reads them; a
    missing one raises [KeyError]. The same keys, in the same order, are
    the ones [update_opt_dict] assigns before it turns to [remote_opts]. *)
Definition keys_read (dialog : dialog_class) : list string :=
  match dialog with
  | DialogCalcOptXYAper =>
      ["n_turns"; "abs_xmax"; "abs_ymax"; "ini_ndiv"; "n_lines";
       "neg_y_search"]
  | DialogCalcOptMap_xy =>
      ["n_turns"; "xmin"; "xmax"; "nx"; "ymin"; "ymax"; "ny";
       "x_offset"; "y_offset"; "delta_offset"]
  | DialogCalcOptMap_px =>
      ["n_turns"; "xmin"; "xmax"; "nx"; "delta_min"; "delta_max"; "ndelta";
       "x_offset"; "y_offset"; "delta_offset"]
  end.

(** The subscripts of the option set in the constructor of a dialog
    ([DialogCalcOptMap.__init__], [DialogCalcOptXYAper.__init__]), which run
    when the handler makes the dialog: a key of [keys_read] that the option
    set lacks raises [KeyError]. The constructor writes nothing to the
    option set. The [.ui] file of the dialog is taken to load, and the
    values under the keys to be of the kinds that the seeding and
    [update_opt_dict] store (numbers, and a Boolean for [neg_y_search]),
    which the widgets accept. *)
Definition dialog_init (dialog : dialog_class) (opts : opt_dict)
  : result unit :=
  if forallb (dict_mem opts) (keys_read dialog) then Ok tt
  else Raise KeyError.

(** [MainWindow.open_calc_opt_edit_dialog], with the two combo-box texts as
    arguments: the lookup of the option set, the choice of the dialog
    class, the constructor of the dialog, its run, and the renaming step.
    [exec_] stands for the run of the modal dialog once it is made: from
    the dialog class, the old name and the option set it is given, it
    yields the entry ['new'] and the option set as the dialog leaves it (the
    dialog edits the catalog's own dictionary object in place). *)
Definition open_calc_opt_edit_dialog
    (exec_ : dialog_class -> string -> opt_dict -> option string * opt_dict)
    (calc_type opt_set_name : string) : stmt calc_opts unit :=
  opts ← read (fun c => get_opt_set c calc_type opt_set_name);
  dialog ← read (fun _ => dialog_for calc_type);
  read (fun _ => dialog_init dialog opts);;
  let '(new, opts') := exec_ dialog opt_set_name opts in
  set_opt_set calc_type opt_set_name opts';;
  rename_opt_set calc_type opt_set_name new.

(** ** Text helpers *)

(** [str.isspace] on one character. Texts are sequences of code points below
    256; these are the twelve of them Python counts as white space. *)
Definition py_isspace (a : ascii) : bool :=
  let n := N_of_ascii a in
  ((9 <=? n) && (n <=? 13) || (28 <=? n) && (n <=? 32)
   || (n =? 133) || (n =? 160))%N.

Fixpoint lstrip (l : list ascii) : list ascii :=
  match l with
  | [] => []
  | a :: l' => if py_isspace a then lstrip l' else l
  end.

(** [s.strip()] *)
Definition py_strip (s : string) : string :=
  string_of_list_ascii
    (rev (lstrip (rev (lstrip (list_ascii_of_string s))))).

(** [bool(s)] for a string, also the truth value of [if s:]. *)
Definition py_bool_str (s : string) : bool :=
  match s with
  | EmptyString => false
  | String _ _ => true
  end.

(** A text of white space only (the empty text included). *)
Definition blank (s : string) : bool :=
  forallb py_isspace (list_ascii_of_string s).

(** ** The map-options dialog *)

(** The widgets of [DialogCalcOptMap] that [update_opt_dict] reads: the text
    of a line edit or of a combo box's current item, the value of a spin
    box, the checked state of a check box or of the checkable group box.
    [is_xy] is the attribute set by the constructor. *)
Record DialogCalcOptMap : Type := {
  is_xy : bool;
  lineEdit_opt_set_name : string;
  spinBox_n_turns : Z;
  lineEdit_xmin : string;
  lineEdit_xmax : string;
  spinBox_nx : Z;
  lineEdit_ymin : string;
  lineEdit_ymax : string;
  spinBox_ny : Z;
  lineEdit_delta_min : string;
  lineEdit_delta_max : string;
  spinBox_ndelta : Z;
  lineEdit_x_offset : string;
  lineEdit_y_offset : string;
  lineEdit_delta_offset : string;
  groupBox_remote_opts : bool;
  checkBox_partition : bool;
  comboBox_partition : string;
  checkBox_ntasks : bool;
  spinBox_ntasks : Z;
  checkBox_time : bool;
  lineEdit_time : string;
  checkBox_diag_mode : bool;
  comboBox_diag_mode : string
}.

(** The two dictionaries the dialog was given and writes to: the entry
    ['new'] of [old_new_opt_set_names] and the option set. *)
Record dialog_refs : Type := {
  names_new : option string;
  opt_dict_of : opt_dict
}.

(** [self.old_new_opt_set_names['new'] = s] *)
Definition set_new_name (s : string) : stmt dialog_refs unit :=
  write (fun r => {| names_new := Some s; opt_dict_of := opt_dict_of r |}).

(** [self.opt_dict[k] = v] *)
Definition set_opt (k : string) (v : value) : stmt dialog_refs unit :=
  write (fun r => {| names_new := names_new r;
                     opt_dict_of := dict_set (opt_dict_of r) k v |}).

(** [if k in self.opt_dict: del self.opt_dict[k]] *)
Definition del_opt_if_present (k : string) : stmt dialog_refs unit :=
  write (fun r => {| names_new := names_new r;
                     opt_dict_of := if dict_mem (opt_dict_of r) k
                                    then dict_remove (opt_dict_of r) k
                                    else opt_dict_of r |}).

(** The dictionary [remote_opts] that [update_opt_dict] builds when the
    group box is checked. *)
Definition build_remote_opts (w : DialogCalcOptMap) : pydict value :=
  let remote_opts : pydict value := [] in
  let remote_opts :=
    if checkBox_partition w
    then dict_set remote_opts "partition" (VStr (comboBox_partition w))
    else remote_opts in
  let remote_opts :=
    if checkBox_ntasks w
    then dict_set remote_opts "ntasks" (VInt (spinBox_ntasks w))
    else remote_opts in
  let remote_opts :=
    if checkBox_time w
    then
      let time_str := py_strip (lineEdit_time w) in
      if py_bool_str time_str
      then dict_set remote_opts "time" (VStr time_str)
      else remote_opts
    else remote_opts in
  let remote_opts :=
    if checkBox_diag_mode w
    then dict_set remote_opts "diag_mode"
           (VBool (py_bool_str (comboBox_diag_mode w)))
    else remote_opts in
  remote_opts.

(** The last part of [update_opt_dict], from
    [if self.groupBox_remote_opts.isChecked():] on. *)
Definition update_remote_opts (w : DialogCalcOptMap) : stmt dialog_refs unit :=
  if groupBox_remote_opts w
  then set_opt "remote_opts" (VDict (build_remote_opts w))
  else del_opt_if_present "remote_opts".

Section UpdateOptDict.

(** Python's [float(text)] ([None] where it raises [ValueError]) and the
    float product [x * 1e-2]; the model does not compute with floats. *)
Variable float : string -> option pyfloat.
Variable times_1e_2 : pyfloat -> pyfloat.

(** [float(s)] as a statement. *)
Definition float_of (s : string) : stmt dialog_refs pyfloat :=
  read (fun _ => match float s with
                 | Some x => Ok x
                 | None => Raise ValueError
                 end).

(** The first part of [update_opt_dict]: the assignments from
    [self.opt_dict['n_turns'] = ...] to
    [self.opt_dict['delta_offset'] = ...]. *)
Definition update_fields (w : DialogCalcOptMap) : stmt dialog_refs unit :=
  set_opt "n_turns" (VInt (spinBox_n_turns w));;
  x ← float_of (lineEdit_xmin w); set_opt "xmin" (VFloat x);;
  x ← float_of (lineEdit_xmax w); set_opt "xmax" (VFloat x);;
  set_opt "nx" (VInt (spinBox_nx w));;
  (if is_xy w then
     x ← float_of (lineEdit_ymin w); set_opt "ymin" (VFloat x);;
     x ← float_of (lineEdit_ymax w); set_opt "ymax" (VFloat x);;
     set_opt "ny" (VInt (spinBox_ny w))
   else
     x ← float_of (lineEdit_delta_min w);
     set_opt "delta_min" (VFloat (times_1e_2 x));;
     x ← float_of (lineEdit_delta_max w);
     set_opt "delta_max" (VFloat (times_1e_2 x));;
     set_opt "ndelta" (VInt (spinBox_ndelta w)));;
  x ← float_of (lineEdit_x_offset w); set_opt "x_offset" (VFloat x);;
  x ← float_of (lineEdit_y_offset w); set_opt "y_offset" (VFloat x);;
  x ← float_of (lineEdit_delta_offset w); set_opt "delta_offset" (VFloat x).

(** [DialogCalcOptMap.update_opt_dict], the slot of the dialog's [accepted]
    signal: the new name, the fields, the remote options. *)
Definition update_opt_dict (w : DialogCalcOptMap) : stmt dialog_refs unit :=
  set_new_name (lineEdit_opt_set_name w);;
  update_fields w;;
  update_remote_opts w.

(** A statement that leaves the new name alone and raises, if it does, a
    [ValueError] for a text that does not parse as a float. *)
Definition field_stmt {A : Type} (m : stmt dialog_refs A) : Prop :=
  forall r,
    names_new (snd (m r)) = names_new r /\
    forall e, fst (m r) = Raise e ->
              e = ValueError /\ exists t, float t = None.

End UpdateOptDict.

(** The entry of [remote_opts] under [key] in an option set, if the option
    set has a [remote_opts] dictionary holding it. *)
Definition remote_opt (d : opt_dict) (key : string) : option value :=
  match dict_get d "remote_opts" with
  | Some (VDict r) => dict_get r key
  | _ => None
  end.

(** ** The include / recalc / replot check boxes *)

(** The checked state of [checkBox_nonlin_include_<calc_type>] and its two
    siblings, keyed by calculation type; whether the recalc and replot boxes
    of a calculation type are enabled; the checked state of the three
    [..._all] boxes. The boxes themselves come from the [.ui] file: there is
    one of each family for every entry of [all_nonlin_calc_types]. *)
Record check_boxes : Type := {
  checkBox_nonlin_include : gmap string bool;
  checkBox_nonlin_recalc : gmap string bool;
  checkBox_nonlin_replot : gmap string bool;
  enabled_nonlin_recalc : gmap string bool;
  enabled_nonlin_replot : gmap string bool;
  checkBox_nonlin_include_all : bool;
  checkBox_nonlin_recalc_all : bool;
  checkBox_nonlin_replot_all : bool
}.

Definition with_include (f : gmap string bool -> gmap string bool)
    (st : check_boxes) : check_boxes :=
  {| checkBox_nonlin_include := f (checkBox_nonlin_include st);
     checkBox_nonlin_recalc := checkBox_nonlin_recalc st;
     checkBox_nonlin_replot := checkBox_nonlin_replot st;
     enabled_nonlin_recalc := enabled_nonlin_recalc st;
     enabled_nonlin_replot := enabled_nonlin_replot st;
     checkBox_nonlin_include_all := checkBox_nonlin_include_all st;
     checkBox_nonlin_recalc_all := checkBox_nonlin_recalc_all st;
     checkBox_nonlin_replot_all := checkBox_nonlin_replot_all st |}.

Definition with_recalc (f : gmap string bool -> gmap string bool)
    (st : check_boxes) : check_boxes :=
  {| checkBox_nonlin_include := checkBox_nonlin_include st;
     checkBox_nonlin_recalc := f (checkBox_nonlin_recalc st);
     checkBox_nonlin_replot := checkBox_nonlin_replot st;
     enabled_nonlin_recalc := enabled_nonlin_recalc st;
     enabled_nonlin_replot := enabled_nonlin_replot st;
     checkBox_nonlin_include_all := checkBox_nonlin_include_all st;
     checkBox_nonlin_recalc_all := checkBox_nonlin_recalc_all st;
     checkBox_nonlin_replot_all := checkBox_nonlin_replot_all st |}.

Definition with_replot (f : gmap string bool -> gmap string bool)
    (st : check_boxes) : check_boxes :=
  {| checkBox_nonlin_include := checkBox_nonlin_include st;
     checkBox_nonlin_recalc := checkBox_nonlin_recalc st;
     checkBox_nonlin_replot := f (checkBox_nonlin_replot st);
     enabled_nonlin_recalc := enabled_nonlin_recalc st;
     enabled_nonlin_replot := enabled_nonlin_replot st;
     checkBox_nonlin_include_all := checkBox_nonlin_include_all st;
     checkBox_nonlin_recalc_all := checkBox_nonlin_recalc_all st;
     checkBox_nonlin_replot_all := checkBox_nonlin_replot_all st |}.

Definition with_enabled (calc_type : string) (enabled : bool)
    (st : check_boxes) : check_boxes :=
  {| checkBox_nonlin_include := checkBox_nonlin_include st;
     checkBox_nonlin_recalc := checkBox_nonlin_recalc st;
     checkBox_nonlin_replot := checkBox_nonlin_replot st;
     enabled_nonlin_recalc :=
       <[calc_type := enabled]> (enabled_nonlin_recalc st);
     enabled_nonlin_replot :=
       <[calc_type := enabled]> (enabled_nonlin_replot st);
     checkBox_nonlin_include_all := checkBox_nonlin_include_all st;
     checkBox_nonlin_recalc_all := checkBox_nonlin_recalc_all st;
     checkBox_nonlin_replot_all := checkBox_nonlin_replot_all st |}.

Definition with_include_all (b : bool) (st : check_boxes) : check_boxes :=
  {| checkBox_nonlin_include := checkBox_nonlin_include st;
     checkBox_nonlin_recalc := checkBox_nonlin_recalc st;
     checkBox_nonlin_replot := checkBox_nonlin_replot st;
     enabled_nonlin_recalc := enabled_nonlin_recalc st;
     enabled_nonlin_replot := enabled_nonlin_replot st;
     checkBox_nonlin_include_all := b;
     checkBox_nonlin_recalc_all := checkBox_nonlin_recalc_all st;
     checkBox_nonlin_replot_all := checkBox_nonlin_replot_all st |}.

Definition with_recalc_all (b : bool) (st : check_boxes) : check_boxes :=
  {| checkBox_nonlin_include := checkBox_nonlin_include st;
     checkBox_nonlin_recalc := checkBox_nonlin_recalc st;
     checkBox_nonlin_replot := checkBox_nonlin_replot st;
     enabled_nonlin_recalc := enabled_nonlin_recalc st;
     enabled_nonlin_replot := enabled_nonlin_replot st;
     checkBox_nonlin_include_all := checkBox_nonlin_include_all st;
     checkBox_nonlin_recalc_all := b;
     checkBox_nonlin_replot_all := checkBox_nonlin_replot_all st |}.

Definition with_replot_all (b : bool) (st : check_boxes) : check_boxes :=
  {| checkBox_nonlin_include := checkBox_nonlin_include st;
     checkBox_nonlin_recalc := checkBox_nonlin_recalc st;
     checkBox_nonlin_replot := checkBox_nonlin_replot st;
     enabled_nonlin_recalc := enabled_nonlin_recalc st;
     enabled_nonlin_replot := enabled_nonlin_replot st;
     checkBox_nonlin_include_all := checkBox_nonlin_include_all st;
     checkBox_nonlin_recalc_all := checkBox_nonlin_recalc_all st;
     checkBox_nonlin_replot_all := b |}.

(** [MainWindow.change_state_recalc_replot_checkboxes] *)
Definition change_state_recalc_replot_checkboxes (st : check_boxes)
    (calc_type : string) (include_checked : bool) : check_boxes :=
  with_enabled calc_type include_checked st.

(** [MainWindow.uncheck_all_include] and its two siblings. *)
Definition uncheck_all_include (st : check_boxes) (checked : bool)
  : check_boxes :=
  if negb checked then with_include_all false st else st.

Definition uncheck_all_recalc (st : check_boxes) (checked : bool)
  : check_boxes :=
  if negb checked then with_recalc_all false st else st.

Definition uncheck_all_replot (st : check_boxes) (checked : bool)
  : check_boxes :=
  if negb checked then with_replot_all false st else st.

(** [MainWindow.change_all_nonlin_calc_type_checkbox_states_include] and its
    two siblings: [setChecked(checked)] on the box of every calculation
    type. [setChecked] emits no [clicked] signal, so no slot runs in turn. *)
Definition setChecked_include (checked : bool) (st : check_boxes)
    (calc_type : string) : check_boxes :=
  with_include <[calc_type := checked]> st.

Definition setChecked_recalc (checked : bool) (st : check_boxes)
    (calc_type : string) : check_boxes :=
  with_recalc <[calc_type := checked]> st.

Definition setChecked_replot (checked : bool) (st : check_boxes)
    (calc_type : string) : check_boxes :=
  with_replot <[calc_type := checked]> st.

Definition change_all_nonlin_calc_type_checkbox_states_include
    (st : check_boxes) (checked : bool) : check_boxes :=
  fold_left (setChecked_include checked) all_nonlin_calc_types st.

Definition change_all_nonlin_calc_type_checkbox_states_recalc
    (st : check_boxes) (checked : bool) : check_boxes :=
  fold_left (setChecked_recalc checked) all_nonlin_calc_types st.

Definition change_all_nonlin_calc_type_checkbox_states_replot
    (st : check_boxes) (checked : bool) : check_boxes :=
  fold_left (setChecked_replot checked) all_nonlin_calc_types st.

(** A check box of the main window. *)
Inductive box : Type :=
| Include (calc_type : string)
| Recalc (calc_type : string)
| Replot (calc_type : string)
| IncludeAll
| RecalcAll
| ReplotAll.


(** The signal [clicked(checked)] of a box: the box takes the state
    [checked], then the slots connected in [MainWindow.__init__] run in the
    order of their connection. *)
Definition clicked (st : check_boxes) (b : box) (checked : bool)
  : check_boxes :=
  match b with
  | Include k =>
      let st := setChecked_include checked st k in
      let st := uncheck_all_include st checked in
      change_state_recalc_replot_checkboxes st k checked
  | Recalc k =>
      let st := setChecked_recalc checked st k in
      uncheck_all_recalc st checked
  | Replot k =>
      let st := setChecked_replot checked st k in
      uncheck_all_replot st checked
  | IncludeAll =>
      let st := with_include_all checked st in
      change_all_nonlin_calc_type_checkbox_states_include st checked
  | RecalcAll =>
      let st := with_recalc_all checked st in
      change_all_nonlin_calc_type_checkbox_states_recalc st checked
  | ReplotAll =>
      let st := with_replot_all checked st in
      change_all_nonlin_calc_type_checkbox_states_replot st checked
  end.


(** A run of [clicked] signals, first to last. *)
Definition run_clicked (st : check_boxes) (evs : list (box * bool))
  : check_boxes :=
  fold_left (fun st ev => clicked st (fst ev) (snd ev)) evs st.

(** Every include box is checked. *)
Definition every_include_checked (st : check_boxes) : Prop :=
  forall k, In k all_nonlin_calc_types ->
            checkBox_nonlin_include st !! k = Some true.



(** A main window with the boxes of every calculation type in the state
    given per family, everything enabled, and the three [..._all] boxes
    as given. *)
Definition uniform_boxes (inc rec rep : bool) : check_boxes :=
  let all b : gmap string bool :=
    list_to_map (map (fun k => (k, b)) all_nonlin_calc_types) in
  {| checkBox_nonlin_include := all inc;
     checkBox_nonlin_recalc := all rec;
     checkBox_nonlin_replot := all rep;
     enabled_nonlin_recalc := all true;
     enabled_nonlin_replot := all true;
     checkBox_nonlin_include_all := inc;
     checkBox_nonlin_recalc_all := rec;
     checkBox_nonlin_replot_all := rep |}.

(** ** The specification's reading of a wall time *)

Definition is_digit (a : ascii) : bool :=
  let n := N_of_ascii a in ((48 <=? n) && (n <=? 57))%N.

(** A non-empty run of digits. *)
Definition numeric (s : string) : bool :=
  py_bool_str s && forallb is_digit (list_ascii_of_string s).

(** The text before and after the first colon. *)
Fixpoint split_colon (s : string) : option (string * string) :=
  match s with
  | EmptyString => None
  | String a s' =>
      if Ascii.eqb a ":"%char then Some (EmptyString, s')
      else match split_colon s' with
           | Some (h, m) => Some (String a h, m)
           | None => None
           end
  end.

(** From the specification, not from the code: a wall time "must match
    HH:MM with both parts numeric". *)
Definition spec_matches_HH_MM (s : string) : bool :=
  match split_colon s with
  | Some (h, m) => numeric h && numeric m
  | None => false
  end.

(** ** Sample inputs *)

(** A parser that accepts every text, to run [update_opt_dict] on samples
    whose float fields play no role. *)
Definition float_sample (s : string) : option pyfloat := Some (dec 0 0).

(** The xy map dialog as it opens on the seeded [fmap_xy] production set,
    with the remote options switched on and the given texts in the time
    field and in the diagnostic-mode selector. *)
Definition dialog_sample (time diag_mode : string) : DialogCalcOptMap :=
  {| is_xy := true;
     lineEdit_opt_set_name := "production";
     spinBox_n_turns := 1024;
     lineEdit_xmin := "-0.01";
     lineEdit_xmax := "0.01";
     spinBox_nx := 201;
     lineEdit_ymin := "0";
     lineEdit_ymax := "0.005";
     spinBox_ny := 201;
     lineEdit_delta_min := EmptyString;
     lineEdit_delta_max := EmptyString;
     spinBox_ndelta := 0;
     lineEdit_x_offset := "1e-06";
     lineEdit_y_offset := "1e-06";
     lineEdit_delta_offset := "0";
     groupBox_remote_opts := true;
     checkBox_partition := true;
     comboBox_partition := "short";
     checkBox_ntasks := false;
     spinBox_ntasks := 1;
     checkBox_time := true;
     lineEdit_time := time;
     checkBox_diag_mode := true;
     comboBox_diag_mode := diag_mode |}.

(** The dictionaries handed to that dialog. *)
Definition refs_sample : dialog_refs :=
  {| names_new := None; opt_dict_of := fmap_xy_production |}.

(** ** Lists of names *)

(** The key list of a dictionary after an assignment to [k]: as it was when
    [k] is there, with [k] at the end when it is new. *)
Definition add_key (l : list string) (k : string) : list string :=
  if existsb (String.eqb k) l then l else (l ++ [k])%list.

(** The key list of a dictionary after [k] has been deleted. *)
Definition remove_key (l : list string) (k : string) : list string :=
  List.filter (fun k' => negb (String.eqb k' k)) l.

(** ** What the dialogs read and write *)

(** [self.lineEdit_time.setText(t)]: the dialog with the text [t] in its
    time field and every other widget as it is. *)
Definition lineEdit_time_setText (w : DialogCalcOptMap) (t : string)
  : DialogCalcOptMap :=
  {| is_xy := is_xy w;
     lineEdit_opt_set_name := lineEdit_opt_set_name w;
     spinBox_n_turns := spinBox_n_turns w;
     lineEdit_xmin := lineEdit_xmin w;
     lineEdit_xmax := lineEdit_xmax w;
     spinBox_nx := spinBox_nx w;
     lineEdit_ymin := lineEdit_ymin w;
     lineEdit_ymax := lineEdit_ymax w;
     spinBox_ny := spinBox_ny w;
     lineEdit_delta_min := lineEdit_delta_min w;
     lineEdit_delta_max := lineEdit_delta_max w;
     spinBox_ndelta := spinBox_ndelta w;
     lineEdit_x_offset := lineEdit_x_offset w;
     lineEdit_y_offset := lineEdit_y_offset w;
     lineEdit_delta_offset := lineEdit_delta_offset w;
     groupBox_remote_opts := groupBox_remote_opts w;
     checkBox_partition := checkBox_partition w;
     comboBox_partition := comboBox_partition w;
     checkBox_ntasks := checkBox_ntasks w;
     spinBox_ntasks := spinBox_ntasks w;
     checkBox_time := checkBox_time w;
     lineEdit_time := t;
     checkBox_diag_mode := checkBox_diag_mode w;
     comboBox_diag_mode := comboBox_diag_mode w |}.

(** The class of a map dialog, from its [is_xy] attribute. *)
Definition map_dialog_class (w : DialogCalcOptMap) : dialog_class :=
  if is_xy w then DialogCalcOptMap_xy else DialogCalcOptMap_px.

(** The statement leaves alone every key of the option set outside [keys],
    whether it returns or raises. *)
Definition frame_stmt {A : Type} (keys : list string)
    (m : stmt dialog_refs A) : Prop :=
  forall r k, ~ In k keys ->
    dict_get (opt_dict_of (snd (m r))) k = dict_get (opt_dict_of r) k.

(** The key list of [remote_opts] for a dialog: each of the four keys is
    there when its box is checked, the time only if it is not blank. *)
Definition remote_keys (w : DialogCalcOptMap) : list string :=
  ((if checkBox_partition w then ["partition"] else []) ++
   (if checkBox_ntasks w then ["ntasks"] else []) ++
   (if checkBox_time w && negb (blank (lineEdit_time w))
    then ["time"] else []) ++
   (if checkBox_diag_mode w then ["diag_mode"] else []))%list.

Section FieldValues.
Variable float : string -> option pyfloat.
Variable times_1e_2 : pyfloat -> pyfloat.

(** The assignments of [update_fields] as one list, when every text
    parses: key and value, in the order of the source. *)
Definition field_values (w : DialogCalcOptMap) : option (pydict value) :=
  xmin ← float (lineEdit_xmin w);
  xmax ← float (lineEdit_xmax w);
  branch ←
    (if is_xy w then
       ymin ← float (lineEdit_ymin w);
       ymax ← float (lineEdit_ymax w);
       Some [("ymin", VFloat ymin); ("ymax", VFloat ymax);
             ("ny", VInt (spinBox_ny w))]
     else
       delta_min ← float (lineEdit_delta_min w);
       delta_max ← float (lineEdit_delta_max w);
       Some [("delta_min", VFloat (times_1e_2 delta_min));
             ("delta_max", VFloat (times_1e_2 delta_max));
             ("ndelta", VInt (spinBox_ndelta w))]);
  x_offset ← float (lineEdit_x_offset w);
  y_offset ← float (lineEdit_y_offset w);
  delta_offset ← float (lineEdit_delta_offset w);
  Some ([("n_turns", VInt (spinBox_n_turns w));
         ("xmin", VFloat xmin); ("xmax", VFloat xmax);
         ("nx", VInt (spinBox_nx w))] ++
        branch ++
        [("x_offset", VFloat x_offset); ("y_offset", VFloat y_offset);
         ("delta_offset", VFloat delta_offset)])%list.

End FieldValues.

(** ** The xy-aperture dialog *)

Module XYAper.

(** The widgets of [DialogCalcOptXYAper] that its [update_opt_dict] reads. *)
Record widgets : Type := {
  lineEdit_opt_set_name : string;
  spinBox_n_turns : Z;
  lineEdit_abs_xmax : string;
  lineEdit_abs_ymax : string;
  spinBox_ini_ndiv : Z;
  spinBox_n_lines : Z;
  checkBox_neg_y_search : bool
}.

Section Update.
Variable float : string -> option pyfloat.

(** [DialogCalcOptXYAper.update_opt_dict] *)
Definition update_opt_dict (w : widgets) : stmt dialog_refs unit :=
  set_new_name (lineEdit_opt_set_name w);;
  set_opt "n_turns" (VInt (spinBox_n_turns w));;
  x ← float_of float (lineEdit_abs_xmax w); set_opt "abs_xmax" (VFloat x);;
  x ← float_of float (lineEdit_abs_ymax w); set_opt "abs_ymax" (VFloat x);;
  set_opt "ini_ndiv" (VInt (spinBox_ini_ndiv w));;
  set_opt "n_lines" (VInt (spinBox_n_lines w));;
  set_opt "neg_y_search" (VBool (checkBox_neg_y_search w)).

(** Its assignments as one list, when both texts parse. *)
Definition field_values (w : widgets) : option (pydict value) :=
  abs_xmax ← float (lineEdit_abs_xmax w);
  abs_ymax ← float (lineEdit_abs_ymax w);
  Some [("n_turns", VInt (spinBox_n_turns w));
        ("abs_xmax", VFloat abs_xmax);
        ("abs_ymax", VFloat abs_ymax);
        ("ini_ndiv", VInt (spinBox_ini_ndiv w));
        ("n_lines", VInt (spinBox_n_lines w));
        ("neg_y_search", VBool (checkBox_neg_y_search w))].

End Update.

End XYAper.

(** ** More sample inputs *)

(** A parser that rejects every text. *)
Definition float_reject (s : string) : option pyfloat := None.

(** The momentum map dialog as it opens on the seeded [fmap_px] "test" set,
    remote options off. *)
Definition dialog_sample_px : DialogCalcOptMap :=
  {| is_xy := false;
     lineEdit_opt_set_name := "test";
     spinBox_n_turns := 1024;
     lineEdit_xmin := "-0.01";
     lineEdit_xmax := "0.01";
     spinBox_nx := 21;
     lineEdit_ymin := EmptyString;
     lineEdit_ymax := EmptyString;
     spinBox_ny := 0;
     lineEdit_delta_min := "-5";
     lineEdit_delta_max := "5";
     spinBox_ndelta := 201;
     lineEdit_x_offset := "1e-06";
     lineEdit_y_offset := "1e-06";
     lineEdit_delta_offset := "0";
     groupBox_remote_opts := false;
     checkBox_partition := false;
     comboBox_partition := "normal";
     checkBox_ntasks := false;
     spinBox_ntasks := 1;
     checkBox_time := false;
     lineEdit_time := EmptyString;
     checkBox_diag_mode := false;
     comboBox_diag_mode := "True" |}.

(** The dictionaries handed to that dialog. *)
Definition refs_sample_px : dialog_refs :=
  {| names_new := None;
     opt_dict_of :=
       dict_update fmap_px_production [("nx", VInt 21); ("ny", VInt 21)] |}.

(** The xy-aperture dialog as it opens on the seeded "test" set. *)
Definition xy_aper_sample : XYAper.widgets :=
  {| XYAper.lineEdit_opt_set_name := "test";
     XYAper.spinBox_n_turns := 128;
     XYAper.lineEdit_abs_xmax := "0.01";
     XYAper.lineEdit_abs_ymax := "0.01";
     XYAper.spinBox_ini_ndiv := 51;
     XYAper.spinBox_n_lines := 21;
     XYAper.checkBox_neg_y_search := false |}.

(** The dictionaries handed to that dialog, with a stray [remote_opts]
    entry in the option set. *)
Definition refs_sample_xy_aper : dialog_refs :=
  {| names_new := None;
     opt_dict_of :=
       dict_set (dict_set xy_aper_production "n_turns" (VInt 128))
         "remote_opts" (VDict [("ntasks", VInt 4)]) |}.

(** ** Stripped texts *)

(** The text is empty or has a character that is not white space at each
    end. *)
Definition outer_space_free (s : string) : bool :=
  match list_ascii_of_string s with
  | [] => true
  | a :: l => negb (py_isspace a) && negb (py_isspace (List.last l a))
  end.

(** ** The three families of check boxes *)

Inductive family : Type :=
| FInclude
| FRecalc
| FReplot.

(** The family of a box. *)
Definition family_of (b : box) : family :=
  match b with
  | Include _ | IncludeAll => FInclude
  | Recalc _ | RecalcAll => FRecalc
  | Replot _ | ReplotAll => FReplot
  end.

(** The per-type boxes of a family, and its [..._all] box. *)
Definition boxes_of (f : family) (st : check_boxes) : gmap string bool :=
  match f with
  | FInclude => checkBox_nonlin_include st
  | FRecalc => checkBox_nonlin_recalc st
  | FReplot => checkBox_nonlin_replot st
  end.

Definition all_box_of (f : family) (st : check_boxes) : bool :=
  match f with
  | FInclude => checkBox_nonlin_include_all st
  | FRecalc => checkBox_nonlin_recalc_all st
  | FReplot => checkBox_nonlin_replot_all st
  end.

(** [setChecked(checked)] on the box of a family for one calculation
    type. *)
Definition setChecked (f : family) (checked : bool) (st : check_boxes)
    (calc_type : string) : check_boxes :=
  match f with
  | FInclude => setChecked_include checked st calc_type
  | FRecalc => setChecked_recalc checked st calc_type
  | FReplot => setChecked_replot checked st calc_type
  end.

(** The [..._all] box of a family is checked only when every box of the
    family is. *)
Definition all_box_sound (f : family) (st : check_boxes) : Prop :=
  all_box_of f st = true ->
  forall k, In k all_nonlin_calc_types -> boxes_of f st !! k = Some true.

#[global] Instance family_eq_dec : EqDecision family.
Proof. solve_decision. Defined.

(** The recalc and replot boxes of every calculation type are enabled
    exactly when its include box is checked. *)
Definition enabled_follows_include (st : check_boxes) : Prop :=
  forall k, In k all_nonlin_calc_types ->
    enabled_nonlin_recalc st !! k = checkBox_nonlin_include st !! k /\
    enabled_nonlin_replot st !! k = checkBox_nonlin_include st !! k.

(** ** Combo boxes *)

(** A [QComboBox] that is not editable: the texts of its items and the
    index of the current item, [-1] when there is none. *)
Record QComboBox : Type := {
  items : list string;
  currentIndex : Z
}.

(** The index is that of an item. *)
Definition valid_index (cb : QComboBox) (i : Z) : bool :=
  (0 <=? i) && (i <? Z.of_nat (length (items cb))).

(** [cb.itemText(i)]: the empty text for an index that is out of range. *)
Definition itemText (cb : QComboBox) (i : Z) : string :=
  if valid_index cb i then nth (Z.to_nat i) (items cb) EmptyString
  else EmptyString.

(** [cb.currentText()] *)
Definition currentText (cb : QComboBox) : string :=
  itemText cb (currentIndex cb).

(** [cb.clear()] *)
Definition clear (cb : QComboBox) : QComboBox :=
  {| items := []; currentIndex := -1 |}.

(** [cb.addItems(texts)]: the texts are appended; a combo box that was empty
    takes its first item as the current one. *)
Definition addItems (cb : QComboBox) (texts : list string) : QComboBox :=
  {| items := items cb ++ texts;
     currentIndex :=
       match items cb, texts with
       | [], _ :: _ => 0
       | _, _ => currentIndex cb
       end |}.

(** The index of the first text of [l] equal to [text], counted from [i];
    [-1] when there is none. *)
Fixpoint find_from (i : Z) (l : list string) (text : string) : Z :=
  match l with
  | [] => -1
  | x :: l' => if String.eqb x text then i else find_from (i + 1) l' text
  end.

(** [cb.findText(text)], with the default flags: exact, case-sensitive. *)
Definition findText (cb : QComboBox) (text : string) : Z :=
  find_from 0 (items cb) text.

(** [cb.setCurrentIndex(i)]: an index that is out of range leaves no
    current item. *)
Definition setCurrentIndex (cb : QComboBox) (i : Z) : QComboBox :=
  {| items := items cb;
     currentIndex := if valid_index cb i then i else -1 |}.

(** The list without its item at position [n]. *)
Fixpoint remove_nth (n : nat) (l : list string) : list string :=
  match l, n with
  | [], _ => []
  | _ :: l', O => l'
  | x :: l', S n' => x :: remove_nth n' l'
  end.

(** The list with [x] put in at position [n], at the end when [n] is
    beyond it. *)
Fixpoint insert_nth (n : nat) (x : string) (l : list string) : list string :=
  match n, l with
  | O, _ => x :: l
  | S n', [] => [x]
  | S n', y :: l' => y :: insert_nth n' x l'
  end.

(** [cb.removeItem(i)], which does nothing for an index out of range. The
    current index follows the items: it moves down by one when an item
    before it goes, and when the current item itself goes the item that
    takes its place (or the last one) becomes current. *)
Definition removeItem (cb : QComboBox) (i : Z) : QComboBox :=
  if valid_index cb i then
    let l := remove_nth (Z.to_nat i) (items cb) in
    let cur := currentIndex cb in
    {| items := l;
       currentIndex :=
         if cur <? i then cur
         else if i <? cur then cur - 1
         else Z.min cur (Z.of_nat (length l) - 1) |}
  else cb.

(** [cb.insertItem(i, text)]: prepended for an index that is zero or
    negative, appended for one that is the number of items or more. The
    current index moves up by one when the item goes in at or before it; a
    combo box that was empty takes the item as the current one. *)
Definition insertItem (cb : QComboBox) (i : Z) (text : string) : QComboBox :=
  let n := Z.to_nat (Z.max 0 i) in
  let cur := currentIndex cb in
  {| items := insert_nth n text (items cb);
     currentIndex :=
       match items cb with
       | [] => 0
       | _ :: _ =>
           if (0 <=? cur) && (Z.min (Z.max 0 i) (Z.of_nat (length (items cb)))
                              <=? cur)
           then cur + 1 else cur
       end |}.

(** The idiom that refreshes a name selector from the list of names, both
    in [update_nonlin_calc_opts_set_name_selector_comboboxes] and at the
    end of [open_calc_opt_edit_dialog]:
<<
    obj.clear()
    obj.addItems(avail_set_names)
    new_index = obj.findText(current_text)
    obj.setCurrentIndex(new_index)
>> *)
Definition refresh_selector (obj : QComboBox) (current_text : string)
    (avail_set_names : list string) : QComboBox :=
  let obj := clear obj in
  let obj := addItems obj avail_set_names in
  let new_index := findText obj current_text in
  setCurrentIndex obj new_index.

(** One round of the loop of
    [update_nonlin_calc_opts_set_name_selector_comboboxes], on the selector
    of one calculation type: the text to find is the one it shows. *)
Definition update_selector (obj : QComboBox) (avail_set_names : list string)
  : QComboBox :=
  refresh_selector obj (currentText obj) avail_set_names.

(** [update_nonlin_calc_opts_set_name_editor_combobox], on the editor's
    combo box, given the names of the calculation type chosen. *)
Definition update_editor (editor : QComboBox)
    (avail_set_names : list string) : QComboBox :=
  addItems (clear editor) avail_set_names.

(** The statements of [open_calc_opt_edit_dialog] after the renaming, on
    the editor's combo box:
<<
    i = self.comboBox_nonlin_calc_opts_set_name.currentIndex()
    self.comboBox_nonlin_calc_opts_set_name.removeItem(i)
    self.comboBox_nonlin_calc_opts_set_name.insertItem(i, names['new'])
    self.comboBox_nonlin_calc_opts_set_name.setCurrentIndex(i)
>> *)
Definition rename_in_editor (editor : QComboBox) (new : string)
  : QComboBox :=
  let i := currentIndex editor in
  let editor := removeItem editor i in
  let editor := insertItem editor i new in
  setCurrentIndex editor i.

(** The statements that follow, on the selector of the calculation type;
    [avail_set_names] is [list(self._calc_opts[calc_type])] after the
    renaming:
<<
    cur_text = obj.currentText()
    if cur_text == names['old']:
        cur_text = names['new']
    ...
>> *)
Definition rename_in_selector (obj : QComboBox) (old new : string)
    (avail_set_names : list string) : QComboBox :=
  let cur_text := currentText obj in
  let cur_text := if String.eqb cur_text old then new else cur_text in
  refresh_selector obj cur_text avail_set_names.

(** ** Opening the map dialog on an option set with remote options *)

(** [str(b)] for a Boolean. *)
Definition py_str_bool (b : bool) : string :=
  if b then "True" else "False".

(** [spinBox.setValue(n)] for a spin box of range [lo] to [hi]: the value
    is brought into the range. *)
Definition setValue (lo hi n : Z) : Z := Z.max lo (Z.min hi n).

(** [comboBox.setCurrentIndex(comboBox.findText(text))] followed by
    [comboBox.currentText()]. *)
Definition select_text (cb : QComboBox) (text : string) : string :=
  currentText (setCurrentIndex cb (findText cb text)).

(** The part of [DialogCalcOptMap.__init__] that sets the remote-option
    widgets from the option set (from [if 'remote_opts' in opt_dict:] on).
    [ui] is the state of the widgets when this part starts, [partitions]
    and [diag_modes] are the two combo boxes as the [.ui] file fills them,
    [lo] and [hi] the range of the task-count spin box. The result is
    [None] for an option set whose [remote_opts] is not of the kind that
    [update_opt_dict] stores (a dictionary with a text for [partition] and
    [time], an integer for [ntasks], a Boolean for [diag_mode]). *)
Definition init_remote_widgets (partitions diag_modes : QComboBox)
    (lo hi : Z) (ui : DialogCalcOptMap) (opt_dict : opt_dict)
  : option DialogCalcOptMap :=
  match dict_get opt_dict "remote_opts" with
  | None =>
      Some {| is_xy := is_xy ui;
              lineEdit_opt_set_name := lineEdit_opt_set_name ui;
              spinBox_n_turns := spinBox_n_turns ui;
              lineEdit_xmin := lineEdit_xmin ui;
              lineEdit_xmax := lineEdit_xmax ui;
              spinBox_nx := spinBox_nx ui;
              lineEdit_ymin := lineEdit_ymin ui;
              lineEdit_ymax := lineEdit_ymax ui;
              spinBox_ny := spinBox_ny ui;
              lineEdit_delta_min := lineEdit_delta_min ui;
              lineEdit_delta_max := lineEdit_delta_max ui;
              spinBox_ndelta := spinBox_ndelta ui;
              lineEdit_x_offset := lineEdit_x_offset ui;
              lineEdit_y_offset := lineEdit_y_offset ui;
              lineEdit_delta_offset := lineEdit_delta_offset ui;
              groupBox_remote_opts := false;
              checkBox_partition := checkBox_partition ui;
              comboBox_partition := comboBox_partition ui;
              checkBox_ntasks := checkBox_ntasks ui;
              spinBox_ntasks := spinBox_ntasks ui;
              checkBox_time := checkBox_time ui;
              lineEdit_time := lineEdit_time ui;
              checkBox_diag_mode := checkBox_diag_mode ui;
              comboBox_diag_mode := comboBox_diag_mode ui |}
  | Some (VDict remote_opts) =>
      partition ←
        match dict_get remote_opts "partition" with
        | None => Some (false, comboBox_partition ui)
        | Some (VStr s) => Some (true, select_text partitions s)
        | Some _ => None
        end;
      ntasks ←
        match dict_get remote_opts "ntasks" with
        | None => Some (false, spinBox_ntasks ui)
        | Some (VInt n) => Some (true, setValue lo hi n)
        | Some _ => None
        end;
      time ←
        match dict_get remote_opts "time" with
        | None => Some (false, lineEdit_time ui)
        | Some (VStr s) => Some (true, s)
        | Some _ => None
        end;
      diag_mode ←
        match dict_get remote_opts "diag_mode" with
        | None => Some (false, comboBox_diag_mode ui)
        | Some (VBool b) => Some (true, select_text diag_modes (py_str_bool b))
        | Some _ => None
        end;
      Some {| is_xy := is_xy ui;
              lineEdit_opt_set_name := lineEdit_opt_set_name ui;
              spinBox_n_turns := spinBox_n_turns ui;
              lineEdit_xmin := lineEdit_xmin ui;
              lineEdit_xmax := lineEdit_xmax ui;
              spinBox_nx := spinBox_nx ui;
              lineEdit_ymin := lineEdit_ymin ui;
              lineEdit_ymax := lineEdit_ymax ui;
              spinBox_ny := spinBox_ny ui;
              lineEdit_delta_min := lineEdit_delta_min ui;
              lineEdit_delta_max := lineEdit_delta_max ui;
              spinBox_ndelta := spinBox_ndelta ui;
              lineEdit_x_offset := lineEdit_x_offset ui;
              lineEdit_y_offset := lineEdit_y_offset ui;
              lineEdit_delta_offset := lineEdit_delta_offset ui;
              groupBox_remote_opts := true;
              checkBox_partition := fst partition;
              comboBox_partition := snd partition;
              checkBox_ntasks := fst ntasks;
              spinBox_ntasks := snd ntasks;
              checkBox_time := fst time;
              lineEdit_time := snd time;
              checkBox_diag_mode := fst diag_mode;
              comboBox_diag_mode := snd diag_mode |}
  | Some _ => None
  end.

(** The diagnostic-mode selector with the two items its use in the
    constructor presupposes. *)
Definition diag_modes_sample : QComboBox :=
  {| items := ["True"; "False"]; currentIndex := 0 |}.

(** A partition selector. *)
Definition partitions_sample : QComboBox :=
  {| items := ["normal"; "short"; "long"]; currentIndex := 0 |}.

(** ** The remote-module warning ([pyelegant/remote.py])

    The body of the module reads [$PYELEGANT_REMOTE], tries to import the
    module of that name and prints a warning when there is none. The
    environment variable and the outcome of the import are inputs; what
    [print] is called with is the output. An exception of the import other
    than [ImportError] is not caught: it leaves the module body before
    anything is printed. *)

Module Remote.

(** What [importlib.import_module] did: it returned the module, raised
    [ImportError] with the message [str(e)], or raised an exception that
    is not an [ImportError], which [except ImportError] does not catch. *)
Inductive import_result : Type :=
| Imported
| ImportError (msg : string)
| OtherException.

(** The module-level names [remote] (as whether it is [None]) and
    [import_error] after the first statement. After an import that
    succeeded [import_error] is unbound; it is not read then. *)
Record state : Type := {
  remote_is_None : bool;
  import_error : option string
}.

(** The first statement of the module body; [None] when the exception of
    the import leaves the module body. *)
Definition load (remote_name : string)
    (import_module : string -> import_result) : option state :=
  if negb (String.eqb remote_name EmptyString) then
    match import_module remote_name with
    | Imported => Some {| remote_is_None := false; import_error := None |}
    | ImportError e =>
        Some {| remote_is_None := true; import_error := Some e |}
    | OtherException => None
    end
  else Some {| remote_is_None := true; import_error := None |}.

(** Python's [dep in s] on strings. *)
Fixpoint contains (dep s : string) : bool :=
  String.prefix dep s ||
  match s with
  | EmptyString => false
  | String _ s' => contains dep s'
  end.

(** The truth value of [import_error]: [None] and the empty text are
    false. *)
Definition truthy (o : option string) : bool :=
  match o with
  | Some (String _ _) => true
  | _ => false
  end.

(** [import_error] inside an f-string. *)
Definition format (o : option string) : string :=
  match o with
  | Some e => e
  | None => "None"
  end.

(** [any(dep in import_error for dep in ["mpi4py", "dill", "qtpy"])], which
    is evaluated only when [import_error] is a non-empty text. *)
Definition any_dep (o : option string) : bool :=
  match o with
  | Some e => existsb (fun dep => contains dep e) ["mpi4py"; "dill"; "qtpy"]
  | None => false
  end.

Definition header : string :=
  String (ascii_of_nat 10) "## pyelegant:WARNING ##".

Definition run_locally : string :=
  "All ELEGANT commands will only be run locally.".

Definition not_set : string :=
  "$PYELEGANT_REMOTE not set. " +:+ run_locally.

Definition cannot_load (remote_name : string) (o : option string) : string :=
  "Cannot load remote module '" +:+ remote_name +:+ "': " +:+ format o.

Definition missing : string :=
  "Missing parallel dependencies. Install with: pip install -e '.[parallel]' or use pixi environment 'all' or 'parallel'".

Definition invalid (remote_name : string) : string :=
  "Invalid $PYELEGANT_REMOTE: '" +:+ remote_name +:+ "'. " +:+ run_locally.

(** The arguments of the [print] calls of the module body, in order. *)
Definition warning (remote_name : string) (st : state) : list string :=
  if remote_is_None st then
    header ::
    (if String.eqb remote_name EmptyString then [not_set]
     else if truthy (import_error st) && any_dep (import_error st) then
       [cannot_load remote_name (import_error st); missing; run_locally]
     else if truthy (import_error st) then
       [cannot_load remote_name (import_error st); run_locally]
     else [invalid remote_name])
  else [].

(** The whole module body: what it prints. *)
Definition run (remote_name : string)
    (import_module : string -> import_result) : list string :=
  match load remote_name import_module with
  | Some st => warning remote_name st
  | None => []
  end.

End Remote.

(** * Part II: facts *)

(** ** Dictionaries *)

Section DictFacts.
Context {A : Type}.
Implicit Types (d : pydict A) (k : string) (v : A).

Lemma dict_get_set_eq d k v : dict_get (dict_set d k v) k = Some v.
Proof.
  induction d as [|[k' v'] d IH]; simpl.
  - now rewrite String.eqb_refl.
  - destruct (String.eqb k' k) eqn:E; simpl; rewrite E; auto.
Qed.

Lemma dict_get_set_ne d k k' v :
  k <> k' -> dict_get (dict_set d k v) k' = dict_get d k'.
Proof.
  intros Hne. apply String.eqb_neq in Hne.
  induction d as [|[k0 v0] d IH]; simpl.
  - now rewrite Hne.
  - destruct (String.eqb k0 k) eqn:E; simpl.
    + apply String.eqb_eq in E. subst k0. now rewrite Hne.
    + now rewrite IH.
Qed.

Lemma dict_get_remove_eq d k : dict_get (dict_remove d k) k = None.
Proof.
  induction d as [|[k' v'] d IH]; simpl; auto.
  destruct (String.eqb k' k) eqn:E; simpl; auto. now rewrite E.
Qed.

Lemma dict_get_remove_ne d k k' :
  k <> k' -> dict_get (dict_remove d k) k' = dict_get d k'.
Proof.
  intros Hne. apply String.eqb_neq in Hne.
  induction d as [|[k0 v0] d IH]; simpl; auto.
  destruct (String.eqb k0 k) eqn:E; simpl.
  - apply String.eqb_eq in E. subst k0. now rewrite Hne.
  - now rewrite IH.
Qed.

Lemma dict_set_set d k v v' :
  dict_set (dict_set d k v) k v' = dict_set d k v'.
Proof.
  induction d as [|[k0 v0] d IH]; simpl.
  - now rewrite String.eqb_refl.
  - destruct (String.eqb k0 k) eqn:E; simpl; rewrite E; [|rewrite IH]; auto.
Qed.

(** [list(d)] lists exactly the bound keys. *)
Lemma dict_keys_get d k : In k (dict_keys d) <-> dict_get d k <> None.
Proof.
  induction d as [|[k' v'] d IH]; simpl.
  - split; [tauto | congruence].
  - destruct (String.eqb_spec k' k) as [->|Hne].
    + split; [congruence | auto].
    + rewrite <- IH. split; [intros [?|?]; [congruence | auto] | auto].
Qed.

Lemma dict_mem_get d k v : dict_get d k = Some v -> dict_mem d k = true.
Proof. unfold dict_mem. now intros ->. Qed.

(** Assigning to an absent key appends it; the other keys stay in place. *)
Lemma dict_keys_set d k v :
  dict_keys (dict_set d k v) =
  if dict_mem d k then dict_keys d else (dict_keys d ++ [k])%list.
Proof.
  unfold dict_mem. induction d as [|[k' v'] d IH]; simpl; auto.
  destruct (String.eqb k' k) eqn:E; simpl; auto.
  rewrite IH. now destruct (dict_get d k).
Qed.

Lemma dict_keys_remove d k :
  dict_keys (dict_remove d k) =
  List.filter (fun k' => negb (String.eqb k' k)) (dict_keys d).
Proof.
  induction d as [|[k' v'] d IH]; simpl; auto.
  destruct (String.eqb k' k); simpl; now rewrite IH.
Qed.

(** Keys stay unique under assignment and deletion. *)
Lemma dict_set_NoDup d k v :
  List.NoDup (dict_keys d) -> List.NoDup (dict_keys (dict_set d k v)).
Proof.
  intros Hnd. rewrite dict_keys_set.
  destruct (dict_mem d k) eqn:E; auto.
  apply NoDup_ListNoDup, NoDup_app. apply NoDup_ListNoDup in Hnd.
  split; [exact Hnd|]. split; [|apply NoDup_singleton].
  intros x Hx Hk. apply list_elem_of_In in Hx.
  apply list_elem_of_In in Hk. destruct Hk as [<-|[]].
  apply dict_keys_get in Hx. unfold dict_mem in E.
  destruct (dict_get d k); congruence.
Qed.

Lemma dict_remove_NoDup d k :
  List.NoDup (dict_keys d) -> List.NoDup (dict_keys (dict_remove d k)).
Proof. intros Hnd. rewrite dict_keys_remove. now apply List.NoDup_filter. Qed.

End DictFacts.

(** ** Statements on the catalog *)

(** Unfolds the statement combinators in the goal. *)
Ltac unfold_stmt :=
  cbv [mbind mret stmt_bind stmt_ret result_bind result_ret read write].

Lemma set_opt_set_run (c : calc_opts) (calc_type name : string)
    (opts : opt_dict) :
  set_opt_set calc_type name opts c =
  match dict_get c calc_type with
  | Some d => (Ok tt, dict_set c calc_type (dict_set d name opts))
  | None => (Raise KeyError, c)
  end.
Proof.
  unfold set_opt_set, dict_item. unfold_stmt.
  now destruct (dict_get c calc_type).
Qed.

Lemma del_opt_set_run (c : calc_opts) (calc_type name : string) :
  del_opt_set calc_type name c =
  match dict_get c calc_type with
  | Some d =>
      if dict_mem d name
      then (Ok tt, dict_set c calc_type (dict_remove d name))
      else (Raise KeyError, c)
  | None => (Raise KeyError, c)
  end.
Proof.
  unfold del_opt_set, dict_item, dict_del. unfold_stmt.
  destruct (dict_get c calc_type) as [d|]; simpl; auto.
  now destruct (dict_mem d name).
Qed.

Lemma get_opt_set_run (c : calc_opts) (calc_type name : string) :
  get_opt_set c calc_type name =
  match dict_get c calc_type with
  | Some d => or_KeyError (dict_get d name)
  | None => Raise KeyError
  end.
Proof.
  unfold get_opt_set, dict_item. unfold_stmt.
  now destruct (dict_get c calc_type).
Qed.

(** ** Renaming *)

(** What the renaming step does when the two names differ: it raises
    [KeyError] without a write when the calculation type or the old name is
    missing, and otherwise rebinds the option set. *)
Lemma rename_opt_set_differ (c : calc_opts) (calc_type old new : string) :
  old <> new ->
  rename_opt_set calc_type old (Some new) c =
  match dict_get c calc_type with
  | Some d =>
      match dict_get d old with
      | Some opts =>
          (Ok tt,
           dict_set c calc_type (dict_remove (dict_set d new opts) old))
      | None => (Raise KeyError, c)
      end
  | None => (Raise KeyError, c)
  end.
Proof.
  intros Hne. unfold rename_opt_set, rename_taken. simpl.
  apply String.eqb_neq in Hne as Hb. rewrite Hb. simpl.
  cbv [mbind stmt_bind read]. rewrite get_opt_set_run.
  destruct (dict_get c calc_type) as [d|] eqn:Hd; [|reflexivity].
  destruct (dict_get d old) as [opts|] eqn:Ho; [|reflexivity].
  simpl. rewrite set_opt_set_run, Hd, del_opt_set_run, dict_get_set_eq.
  rewrite (dict_mem_get _ _ opts) by (rewrite dict_get_set_ne; auto).
  now rewrite dict_set_set.
Qed.

(** The renaming step with equal names, or after a cancelled dialog, writes
    nothing. *)
Lemma rename_opt_set_same (c : calc_opts) (calc_type name : string) :
  rename_opt_set calc_type name (Some name) c = (Ok tt, c).
Proof.
  unfold rename_opt_set, rename_taken. simpl.
  now rewrite String.eqb_refl.
Qed.

Lemma rename_opt_set_cancelled (c : calc_opts) (calc_type old : string) :
  rename_opt_set calc_type old None c = (Ok tt, c).
Proof. reflexivity. Qed.

Lemma get_opt_set_after_set (c : calc_opts) (calc_type name : string)
    (d : pydict opt_dict) :
  get_opt_set (dict_set c calc_type d) calc_type name =
  or_KeyError (dict_get d name).
Proof. now rewrite get_opt_set_run, dict_get_set_eq. Qed.

Lemma avail_set_names_after_set (c : calc_opts) (calc_type : string)
    (d : pydict opt_dict) :
  avail_set_names (dict_set c calc_type d) calc_type = Ok (dict_keys d).
Proof.
  unfold avail_set_names, dict_item. now rewrite dict_get_set_eq.
Qed.

(** C2, as the code has it. Renaming with two different names fails in one
    case only, with [KeyError] and without touching the catalog: when the
    calculation type or the old name is not there. The new name is not
    looked at: it may be empty, and it may be taken. After a renaming that
    went through, the old name is gone and the new name holds the option set
    the old name held, so the set is listed once, under the new name. *)
Theorem rename_fails_only_on_missing_old
    (c : calc_opts) (calc_type old new : string) :
  old <> new ->
  match get_opt_set c calc_type old with
  | Raise _ => rename_opt_set calc_type old (Some new) c = (Raise KeyError, c)
  | Ok opts =>
      exists c',
        rename_opt_set calc_type old (Some new) c = (Ok tt, c') /\
        get_opt_set c' calc_type old = Raise KeyError /\
        get_opt_set c' calc_type new = Ok opts /\
        exists names,
          avail_set_names c' calc_type = Ok names /\
          In new names /\ ~ In old names
  end.
Proof.
  intros Hne. rewrite (rename_opt_set_differ c calc_type old new Hne).
  rewrite get_opt_set_run.
  destruct (dict_get c calc_type) as [d|]; [|reflexivity].
  destruct (dict_get d old) as [opts|]; [|reflexivity]. simpl.
  eexists. split; [reflexivity|].
  rewrite !get_opt_set_after_set, avail_set_names_after_set.
  rewrite dict_get_remove_eq, dict_get_remove_ne, dict_get_set_eq by auto.
  repeat split; auto.
  eexists. split; [reflexivity|]. rewrite !dict_keys_get.
  rewrite dict_get_remove_eq, dict_get_remove_ne, dict_get_set_eq by auto.
  split; congruence.
Qed.

(** The theorem at the seeded catalog: [xy_aper]'s "production" set renamed
    to the empty name. *)
Lemma rename_fails_only_on_missing_old_witness :
  "production" <> EmptyString /\
  exists c',
    rename_opt_set "xy_aper" "production" (Some EmptyString) default_calc_opts
    = (Ok tt, c') /\
    get_opt_set c' "xy_aper" "production" = Raise KeyError /\
    get_opt_set c' "xy_aper" EmptyString = Ok xy_aper_production /\
    exists names,
      avail_set_names c' "xy_aper" = Ok names /\
      In EmptyString names /\ ~ In "production" names.
Proof.
  split; [discriminate|].
  apply (rename_fails_only_on_missing_old
           default_calc_opts "xy_aper" "production" EmptyString).
  discriminate.
Defined.

(** C2, as the specification states it, does not hold: renaming to the empty
    name goes through, and so does renaming to a name that is taken, whose
    option set is then replaced. *)
Lemma rename_accepts_empty_and_taken_names :
  (fst (rename_opt_set "xy_aper" "production" (Some EmptyString)
          default_calc_opts)
   = Ok tt /\
   avail_set_names
     (snd (rename_opt_set "xy_aper" "production" (Some EmptyString)
             default_calc_opts)) "xy_aper"
   = Ok ["test"; EmptyString]) /\
  (dict_mem (default (nil : pydict opt_dict)
               (dict_get default_calc_opts "xy_aper")) "test" = true /\
   fst (rename_opt_set "xy_aper" "production" (Some "test")
          default_calc_opts)
   = Ok tt /\
   avail_set_names
     (snd (rename_opt_set "xy_aper" "production" (Some "test")
             default_calc_opts)) "xy_aper"
   = Ok ["test"]).
Proof. vm_compute. repeat split; reflexivity. Qed.

(** C4. When renaming [a] to a different name [b] goes through, looking up
    [a] raises [KeyError] and looking up [b] yields the option set that was
    stored under [a]. *)
Theorem rename_moves_opt_set
    (c c' : calc_opts) (calc_type a b : string) :
  a <> b ->
  rename_opt_set calc_type a (Some b) c = (Ok tt, c') ->
  get_opt_set c' calc_type a = Raise KeyError /\
  exists opts,
    get_opt_set c calc_type a = Ok opts /\
    get_opt_set c' calc_type b = Ok opts.
Proof.
  intros Hne Hrun.
  rewrite (rename_opt_set_differ c calc_type a b Hne) in Hrun.
  rewrite (get_opt_set_run c).
  destruct (dict_get c calc_type) as [d|]; [|discriminate].
  destruct (dict_get d a) as [opts|]; [|discriminate].
  injection Hrun as <-.
  rewrite !get_opt_set_after_set.
  rewrite dict_get_remove_eq, dict_get_remove_ne, dict_get_set_eq by auto.
  split; [reflexivity|]. now exists opts.
Qed.

(** The theorem at the seeded catalog: [fmap_xy]'s "test" set renamed to
    "quick". *)
Lemma rename_moves_opt_set_witness :
  "test" <> "quick" /\
  rename_opt_set "fmap_xy" "test" (Some "quick") default_calc_opts
  = (Ok tt,
     snd (rename_opt_set "fmap_xy" "test" (Some "quick")
            default_calc_opts)) /\
  get_opt_set
    (snd (rename_opt_set "fmap_xy" "test" (Some "quick") default_calc_opts))
    "fmap_xy" "test" = Raise KeyError /\
  exists opts,
    get_opt_set default_calc_opts "fmap_xy" "test" = Ok opts /\
    get_opt_set
      (snd (rename_opt_set "fmap_xy" "test" (Some "quick")
              default_calc_opts))
      "fmap_xy" "quick" = Ok opts.
Proof.
  split; [discriminate|]. split; [reflexivity|].
  apply (rename_moves_opt_set default_calc_opts _ "fmap_xy" "test" "quick").
  - discriminate.
  - reflexivity.
Defined.

(** C7. Renaming a set to the name it has takes the branch that writes
    nothing: the guard of the renaming is false, the step returns normally
    and the catalog is the one it started from. *)
Theorem rename_same_name_unchanged (c : calc_opts) (calc_type name : string) :
  rename_taken name (Some name) = false /\
  rename_opt_set calc_type name (Some name) c = (Ok tt, c).
Proof.
  split; [|apply rename_opt_set_same].
  unfold rename_taken. simpl. now rewrite String.eqb_refl.
Qed.

(** ** The handler around the renaming step *)

(** For the three calculation types without an editor the handler raises
    before it reaches the renaming step, and writes nothing. *)
Lemma open_calc_opt_edit_dialog_not_implemented exec_
    (c : calc_opts) (calc_type name : string) (opts : opt_dict) :
  In calc_type ["tswa"; "nonlin_chrom"; "mom_aper"] ->
  get_opt_set c calc_type name = Ok opts ->
  open_calc_opt_edit_dialog exec_ calc_type name c
  = (Raise NotImplementedError, c).
Proof.
  intros Hin Hget. unfold open_calc_opt_edit_dialog.
  cbv [mbind stmt_bind read]. rewrite Hget.
  destruct Hin as [<-|[<-|[<-|[]]]]; reflexivity.
Qed.

(** Where an editor exists and the option set has the keys its
    constructor reads, the handler stores what the dialog left in the
    option set and then runs the renaming step on the name it returned. *)
Lemma open_calc_opt_edit_dialog_edits exec_
    (c : calc_opts) (calc_type name : string) (d : pydict opt_dict)
    (opts opts' : opt_dict) (dialog : dialog_class) (new : option string) :
  dict_get c calc_type = Some d ->
  dict_get d name = Some opts ->
  dialog_for calc_type = Ok dialog ->
  dialog_init dialog opts = Ok tt ->
  exec_ dialog name opts = (new, opts') ->
  open_calc_opt_edit_dialog exec_ calc_type name c
  = rename_opt_set calc_type name new
      (dict_set c calc_type (dict_set d name opts')).
Proof.
  intros Hd Ho Hdlg Hinit Hexec. unfold open_calc_opt_edit_dialog.
  cbv [mbind stmt_bind read]. rewrite get_opt_set_run, Hd, Ho, Hdlg. simpl.
  rewrite Hinit, Hexec. cbv [mbind stmt_bind].
  now rewrite set_opt_set_run, Hd.
Qed.

(** ** Check boxes *)

Section SetAll.
Variable checked : bool.



Lemma set_include_loop_all (l : list string) (st : check_boxes) :
  checkBox_nonlin_include_all (fold_left (setChecked_include checked) l st)
  = checkBox_nonlin_include_all st.
Proof.
  revert st. induction l as [|c l IH]; intros st; simpl; auto.
  now rewrite IH.
Qed.

(** The loops over the recalc and replot boxes leave the include boxes and
    the include-all box alone. *)
Lemma set_recalc_loop_include (l : list string) (st : check_boxes) :
  let st' := fold_left (setChecked_recalc checked) l st in
  checkBox_nonlin_include st' = checkBox_nonlin_include st /\
  checkBox_nonlin_include_all st' = checkBox_nonlin_include_all st.
Proof.
  revert st. induction l as [|c l IH]; intros st; simpl; auto.
  destruct (IH (setChecked_recalc checked st c)) as [-> ->]. auto.
Qed.

Lemma set_replot_loop_include (l : list string) (st : check_boxes) :
  let st' := fold_left (setChecked_replot checked) l st in
  checkBox_nonlin_include st' = checkBox_nonlin_include st /\
  checkBox_nonlin_include_all st' = checkBox_nonlin_include_all st.
Proof.
  revert st. induction l as [|c l IH]; intros st; simpl; auto.
  destruct (IH (setChecked_replot checked st c)) as [-> ->]. auto.
Qed.

End SetAll.

(** What one [clicked] signal does to the include boxes and to the
    include-all box. *)
Lemma clicked_Include_lookup (st : check_boxes) (k' k : string)
    (checked : bool) :
  checkBox_nonlin_include (clicked st (Include k') checked) !! k =
  if decide (k' = k) then Some checked else checkBox_nonlin_include st !! k.
Proof.
  unfold clicked, uncheck_all_include.
  destruct checked; simpl; apply lookup_insert.
Qed.


Lemma clicked_other_family (st : check_boxes) (b : box) (checked : bool) :
  match b with Include _ | IncludeAll => False | _ => True end ->
  checkBox_nonlin_include (clicked st b checked)
  = checkBox_nonlin_include st /\
  checkBox_nonlin_include_all (clicked st b checked)
  = checkBox_nonlin_include_all st.
Proof.
  destruct b as [k'|k'|k'| | |]; intros H; try destruct H; unfold clicked.
  - unfold uncheck_all_recalc. now destruct checked.
  - unfold uncheck_all_replot. now destruct checked.
  - exact (set_recalc_loop_include checked all_nonlin_calc_types
             (with_recalc_all checked st)).
  - exact (set_replot_loop_include checked all_nonlin_calc_types
             (with_replot_all checked st)).
Qed.

Lemma clicked_include_all_box (st : check_boxes) (b : box) (checked : bool) :
  checkBox_nonlin_include_all (clicked st b checked) =
  match b with
  | Include _ => checked && checkBox_nonlin_include_all st
  | IncludeAll => checked
  | _ => checkBox_nonlin_include_all st
  end.
Proof.
  destruct b as [k'|k'|k'| | |];
    try (now apply clicked_other_family); unfold clicked.
  - unfold uncheck_all_include. now destruct checked.
  - unfold change_all_nonlin_calc_type_checkbox_states_include.
    now rewrite set_include_loop_all.
Qed.






(** Every box of the sample window is checked, and its include-all box
    agrees with them. *)
Lemma uniform_boxes_checked (rec rep : bool) :
  every_include_checked (uniform_boxes true rec rep).
Proof.
  intros k Hk. simpl in Hk.
  repeat (destruct Hk as [<-|Hk]; [reflexivity|]). destruct Hk.
Qed.



(** C5. With every include box and the include-all box checked, unchecking
    the include box of one calculation type unchecks the include-all box,
    leaves that include box unchecked, and leaves every other include box
    checked. *)
Theorem uncheck_one_unchecks_all (st : check_boxes) (B : string) :
  every_include_checked st ->
  checkBox_nonlin_include_all st = true ->
  let st' := clicked st (Include B) false in
  checkBox_nonlin_include_all st' = false /\
  checkBox_nonlin_include st' !! B = Some false /\
  forall k, In k all_nonlin_calc_types -> k <> B ->
            checkBox_nonlin_include st' !! k = Some true.
Proof.
  intros Hall Hbox st'. subst st'. split; [|split].
  - now rewrite clicked_include_all_box.
  - rewrite clicked_Include_lookup. now destruct (decide (B = B)).
  - intros k Hk Hne. rewrite clicked_Include_lookup.
    destruct (decide (B = k)); [congruence | auto].
Qed.

(** The theorem at a window with every include box checked, unchecking the
    include box of [fmap_xy]. *)
Lemma uncheck_one_unchecks_all_witness :
  every_include_checked (uniform_boxes true true false) /\
  checkBox_nonlin_include_all (uniform_boxes true true false) = true /\
  checkBox_nonlin_include_all
    (clicked (uniform_boxes true true false) (Include "fmap_xy") false)
  = false /\
  checkBox_nonlin_include
    (clicked (uniform_boxes true true false) (Include "fmap_xy") false)
    !! "fmap_xy" = Some false /\
  forall k, In k all_nonlin_calc_types -> k <> "fmap_xy" ->
    checkBox_nonlin_include
      (clicked (uniform_boxes true true false) (Include "fmap_xy") false)
      !! k = Some true.
Proof.
  split; [apply uniform_boxes_checked|]. split; [reflexivity|].
  apply (uncheck_one_unchecks_all (uniform_boxes true true false) "fmap_xy").
  - apply uniform_boxes_checked.
  - reflexivity.
Defined.

(** C6. Unchecking and then checking again the include box of a calculation
    type leaves the checked state of every recalc and replot box as it was:
    the slot connected to the include box only disables and enables them. *)
Theorem include_off_on_keeps_recalc_replot (st : check_boxes) (k : string) :
  let st1 := clicked st (Include k) false in
  let st2 := clicked st1 (Include k) true in
  (checkBox_nonlin_recalc st1 = checkBox_nonlin_recalc st /\
   checkBox_nonlin_replot st1 = checkBox_nonlin_replot st) /\
  (checkBox_nonlin_recalc st2 = checkBox_nonlin_recalc st /\
   checkBox_nonlin_replot st2 = checkBox_nonlin_replot st) /\
  checkBox_nonlin_recalc st2 !! k = checkBox_nonlin_recalc st !! k /\
  checkBox_nonlin_replot st2 !! k = checkBox_nonlin_replot st !! k /\
  enabled_nonlin_recalc st1 !! k = Some false /\
  enabled_nonlin_recalc st2 !! k = Some true.
Proof.
  simpl. repeat split; apply lookup_insert_eq.
Qed.

(** ** The seeded catalog *)

(** Seeding runs to its end, whatever the catalog held before. *)
Lemma _set_default_calc_opt_sets_run (c : calc_opts) :
  _set_default_calc_opt_sets c = (Ok tt, default_calc_opts).
Proof. reflexivity. Qed.

(** The names under which the seeded catalog lists each calculation type. *)
Lemma default_avail_set_names :
  map (avail_set_names default_calc_opts) all_nonlin_calc_types =
  [Ok ["production"; "test"]; Ok ["production"; "test"];
   Ok ["production"; "test"]; Ok ["production"; "test"];
   Ok ["production"; "test"]; Ok ["production"]; Ok ["production"];
   Ok ["production"; "test"]].
Proof. reflexivity. Qed.

(** C3, as the code has it. After seeding, every calculation type lists
    "production"; every one but [tswa] and [nonlin_chrom] lists "test" as
    well; and wherever there is a "test" set, its number of turns is at most
    that of the "production" set. *)
Theorem seeded_names_and_turns (k : string) :
  In k all_nonlin_calc_types ->
  exists names production n_prod,
    avail_set_names default_calc_opts k = Ok names /\
    In "production" names /\
    (k <> "tswa" -> k <> "nonlin_chrom" -> In "test" names) /\
    get_opt_set default_calc_opts k "production" = Ok production /\
    int_param production "n_turns" = Some n_prod /\
    forall test,
      get_opt_set default_calc_opts k "test" = Ok test ->
      exists n_test,
        int_param test "n_turns" = Some n_test /\ n_test <= n_prod.
Proof.
  intros Hk. simpl in Hk.
  repeat (destruct Hk as [<-|Hk];
    [ eexists _, _, _;
      split; [reflexivity|];
      split; [now left|];
      split; [intros; first [now (right; left) | congruence]|];
      split; [reflexivity|];
      split; [reflexivity|];
      intros test Htest; vm_compute in Htest;
      first [discriminate Htest
            | injection Htest as <-; eexists; split; [reflexivity|];
              vm_compute; discriminate]
    | ]).
  destruct Hk.
Qed.

(** The theorem at [cmap_px]. *)
Lemma seeded_names_and_turns_witness :
  In "cmap_px" all_nonlin_calc_types /\
  exists names production n_prod,
    avail_set_names default_calc_opts "cmap_px" = Ok names /\
    In "production" names /\
    ("cmap_px" <> "tswa" -> "cmap_px" <> "nonlin_chrom" -> In "test" names) /\
    get_opt_set default_calc_opts "cmap_px" "production" = Ok production /\
    int_param production "n_turns" = Some n_prod /\
    forall test,
      get_opt_set default_calc_opts "cmap_px" "test" = Ok test ->
      exists n_test,
        int_param test "n_turns" = Some n_test /\ n_test <= n_prod.
Proof.
  assert (H : In "cmap_px" all_nonlin_calc_types)
    by (simpl; do 4 right; now left).
  split; [exact H|]. apply (seeded_names_and_turns "cmap_px" H).
Defined.

(** C3, as the specification states it, does not hold: the seeded catalog
    has no "test" set for [tswa], nor for [nonlin_chrom]. *)
Lemma seeded_tswa_has_no_test :
  In "tswa" all_nonlin_calc_types /\
  avail_set_names default_calc_opts "tswa" = Ok ["production"] /\
  ~ In "test" ["production"] /\
  get_opt_set default_calc_opts "tswa" "test" = Raise KeyError /\
  get_opt_set default_calc_opts "nonlin_chrom" "test" = Raise KeyError.
Proof.
  split; [simpl; do 5 right; now left|].
  split; [reflexivity|]. split; [|split; reflexivity].
  intros [H|[]]. discriminate H.
Qed.

(** C9 fails on the code. The "test" set seeded for [fmap_px] has the
    parameter [ny], which its "production" set does not have (the update
    that derives it is the one written for [fmap_xy]; the grid of [fmap_px]
    is [ndelta] by [nx], and [ndelta] stays at its production value). The
    "test" set of [cmap_px], copied from it, has the same key. *)
Theorem seeded_px_test_has_extra_key :
  exists production test,
    get_opt_set default_calc_opts "fmap_px" "production" = Ok production /\
    get_opt_set default_calc_opts "fmap_px" "test" = Ok test /\
    In "ny" (dict_keys test) /\
    ~ In "ny" (dict_keys production) /\
    dict_dom test = dict_dom production ∪ {["ny"]} /\
    dict_dom test <> dict_dom production /\
    int_param test "ndelta" = int_param production "ndelta" /\
    get_opt_set default_calc_opts "cmap_px" "production" = Ok production /\
    get_opt_set default_calc_opts "cmap_px" "test"
    = Ok (dict_set test "n_turns" (VInt 128)).
Proof.
  eexists _, _. split; [reflexivity|]. split; [reflexivity|].
  assert (Hin : In "ny" (dict_keys
            (dict_update fmap_px_production
               [("nx", VInt 21); ("ny", VInt 21)])))
    by (simpl; do 10 right; now left).
  assert (Hout : ~ In "ny" (dict_keys fmap_px_production))
    by (simpl; intros H;
        repeat (destruct H as [H|H]; [discriminate H|]); exact H).
  split; [exact Hin|]. split; [exact Hout|].
  split; [unfold dict_dom; simpl; set_solver|].
  split; [|repeat split; reflexivity].
  intros Heq. apply Hout.
  apply list_elem_of_In, (elem_of_list_to_set (C := gset string)).
  fold (dict_dom fmap_px_production). rewrite <- Heq.
  apply elem_of_list_to_set, list_elem_of_In, Hin.
Qed.

(** For the other calculation types that have a "test" set, it has the
    parameters of the "production" set, in the same order. *)
Lemma seeded_other_tests_keep_keys (k : string) :
  In k ["xy_aper"; "fmap_xy"; "cmap_xy"; "mom_aper"] ->
  exists production test,
    get_opt_set default_calc_opts k "production" = Ok production /\
    get_opt_set default_calc_opts k "test" = Ok test /\
    dict_keys test = dict_keys production.
Proof.
  intros Hk. simpl in Hk.
  repeat (destruct Hk as [<-|Hk];
          [eexists _, _; repeat split; reflexivity|]).
  destruct Hk.
Qed.

(** ** Committing the map-options dialog *)

(** A sequence returns when both parts do. *)
Lemma bind_returns {S A B : Type} (m : stmt S A) (f : A -> stmt S B)
    (s s' : S) (b : B) :
  (m ≫= f) s = (Ok b, s') ->
  exists a s1, m s = (Ok a, s1) /\ f a s1 = (Ok b, s').
Proof.
  unfold mbind, stmt_bind. destruct (m s) as [[a|e] s1]; [eauto|discriminate].
Qed.

(** The remote options are written last and never raise. *)
Lemma update_remote_opts_run (w : DialogCalcOptMap) (r : dialog_refs) :
  exists r',
    update_remote_opts w r = (Ok tt, r') /\
    names_new r' = names_new r /\
    dict_get (opt_dict_of r') "remote_opts" =
    if groupBox_remote_opts w then Some (VDict (build_remote_opts w))
    else None.
Proof.
  unfold update_remote_opts, set_opt, del_opt_if_present, write.
  destruct (groupBox_remote_opts w); eexists; (split; [reflexivity|]);
    simpl; (split; [reflexivity|]).
  - apply dict_get_set_eq.
  - unfold dict_mem.
    destruct (dict_get (opt_dict_of r) "remote_opts") eqn:E;
      [apply dict_get_remove_eq | exact E].
Qed.

Section UpdateOptDictFacts.
Variable float : string -> option pyfloat.
Variable times_1e_2 : pyfloat -> pyfloat.

Lemma field_stmt_set_opt (k : string) (v : value) :
  field_stmt float (set_opt k v).
Proof. intros r. split; [reflexivity | discriminate]. Qed.

Lemma field_stmt_float_of (t : string) :
  field_stmt float (float_of float t).
Proof.
  intros r. unfold float_of, read. simpl. split; [reflexivity|].
  destruct (float t) eqn:E; [discriminate|]. intros e [= <-]. eauto.
Qed.

Lemma field_stmt_bind {A B : Type} (m : stmt dialog_refs A)
    (f : A -> stmt dialog_refs B) :
  field_stmt float m -> (forall a, field_stmt float (f a)) ->
  field_stmt float (m ≫= f).
Proof.
  intros Hm Hf r. unfold mbind, stmt_bind.
  destruct (Hm r) as [Hn He]. destruct (m r) as [[a|e] r1]; simpl in *.
  - destruct (Hf a r1) as [Hn' He']. split; [congruence | exact He'].
  - split; [exact Hn|]. intros e' [= <-]. now apply He.
Qed.

Lemma field_stmt_update_fields (w : DialogCalcOptMap) :
  field_stmt float (update_fields float times_1e_2 w).
Proof.
  unfold update_fields.
  destruct (is_xy w);
    repeat first [ apply field_stmt_bind; [|intros ?]
                 | apply field_stmt_set_opt
                 | apply field_stmt_float_of ].
Qed.

(** When [update_opt_dict] returns, the new name is the text of the name
    field, and [remote_opts] is the dictionary built from the remote-option
    widgets if the group box is checked and is absent otherwise. *)
Lemma update_opt_dict_returns (w : DialogCalcOptMap) (r r' : dialog_refs) :
  update_opt_dict float times_1e_2 w r = (Ok tt, r') ->
  names_new r' = Some (lineEdit_opt_set_name w) /\
  dict_get (opt_dict_of r') "remote_opts" =
  if groupBox_remote_opts w then Some (VDict (build_remote_opts w))
  else None.
Proof.
  unfold update_opt_dict. intros H.
  apply bind_returns in H as ([] & r1 & H1 & H).
  apply bind_returns in H as ([] & r2 & H2 & H).
  destruct (update_remote_opts_run w r2) as (r3 & H3 & Hn & Hd).
  rewrite H3 in H. injection H as <-. split; [|exact Hd].
  rewrite Hn.
  destruct (field_stmt_update_fields w r1) as [Hn2 _].
  rewrite H2 in Hn2. simpl in Hn2. rewrite Hn2.
  unfold set_new_name, write in H1. now injection H1 as <-.
Qed.

(** [update_opt_dict] raises only [ValueError], and only because a text
    does not parse as a float. *)
Lemma update_opt_dict_raises (w : DialogCalcOptMap) (r : dialog_refs)
    (e : exn) :
  fst (update_opt_dict float times_1e_2 w r) = Raise e ->
  e = ValueError /\ exists s, float s = None.
Proof.
  unfold update_opt_dict, set_new_name, write, mbind, stmt_bind.
  set (r1 := {| names_new := _ |}).
  destruct (field_stmt_update_fields w r1) as [_ He].
  destruct (update_fields float times_1e_2 w r1) as [[[]|e'] r2]; simpl in *.
  - destruct (update_remote_opts_run w r2) as (r3 & -> & _). discriminate.
  - exact (He e).
Qed.

End UpdateOptDictFacts.

(** ** The remote options of a committed dialog *)

Lemma lstrip_nil (l : list ascii) :
  lstrip l = [] <-> forallb py_isspace l = true.
Proof.
  induction l as [|a l IH]; simpl; [tauto|].
  destruct (py_isspace a); simpl; [exact IH|]. split; discriminate.
Qed.

Lemma lstrip_not_blank (l : list ascii) :
  lstrip l <> [] -> forallb py_isspace (lstrip l) = false.
Proof.
  induction l as [|a l IH]; simpl; [congruence|].
  destruct (py_isspace a) eqn:E; [exact IH|]. intros _. simpl. now rewrite E.
Qed.

(** Stripping leaves the empty text exactly for a blank text. *)
Lemma py_strip_blank (s : string) :
  py_bool_str (py_strip s) = negb (blank s).
Proof.
  unfold py_strip, blank.
  set (l := list_ascii_of_string s).
  destruct (forallb py_isspace l) eqn:E.
  - apply lstrip_nil in E. rewrite E. reflexivity.
  - assert (Hne : lstrip l <> []).
    { intros H. apply lstrip_nil in H. congruence. }
    apply lstrip_not_blank in Hne.
    assert (Hrev : lstrip (rev (lstrip l)) <> []).
    { intros H. apply lstrip_nil in H.
      rewrite forallb_forall in H.
      assert (forallb py_isspace (lstrip l) = true); [|congruence].
      apply forallb_forall. intros x Hx. apply H. now apply in_rev in Hx. }
    destruct (lstrip (rev (lstrip l))) as [|a l'] eqn:El; [congruence|].
    simpl. destruct (rev l' ++ [a])%list eqn:Ea; [|reflexivity].
    now apply app_eq_nil in Ea as [_ Ea].
Qed.

(** The entry ['time'] of the dictionary built from the widgets. *)
Lemma build_remote_opts_time (w : DialogCalcOptMap) :
  dict_get (build_remote_opts w) "time" =
  if checkBox_time w && negb (blank (lineEdit_time w))
  then Some (VStr (py_strip (lineEdit_time w)))
  else None.
Proof.
  unfold build_remote_opts. rewrite <- py_strip_blank.
  set (t := py_strip (lineEdit_time w)).
  destruct (checkBox_partition w), (checkBox_ntasks w), (checkBox_time w),
    (py_bool_str t), (checkBox_diag_mode w); reflexivity.
Qed.

(** The entry ['diag_mode'] of the dictionary built from the widgets. *)
Lemma build_remote_opts_diag_mode (w : DialogCalcOptMap) :
  dict_get (build_remote_opts w) "diag_mode" =
  if checkBox_diag_mode w
  then Some (VBool (py_bool_str (comboBox_diag_mode w)))
  else None.
Proof.
  unfold build_remote_opts.
  set (t := py_strip (lineEdit_time w)).
  destruct (checkBox_partition w), (checkBox_ntasks w), (checkBox_time w),
    (py_bool_str t), (checkBox_diag_mode w); reflexivity.
Qed.

Lemma py_bool_str_true (s : string) : py_bool_str s = true <-> s <> EmptyString.
Proof. destruct s; simpl; split; congruence. Qed.

(** C10. When the dialog is committed with the remote options and the
    diagnostic-mode box checked, the stored [diag_mode] is [bool] of the
    selector's text: [True] exactly for a non-empty text, the text "False"
    included, and [False] exactly for the empty text. (The constructor
    selects the item whose text is [str(remote_opts['diag_mode'])], so the
    selector's items are the texts "True" and "False".) *)
Theorem diag_mode_is_text_truthiness
    (float : string -> option pyfloat) (times_1e_2 : pyfloat -> pyfloat)
    (w : DialogCalcOptMap) (r r' : dialog_refs) :
  groupBox_remote_opts w = true ->
  checkBox_diag_mode w = true ->
  update_opt_dict float times_1e_2 w r = (Ok tt, r') ->
  let stored := remote_opt (opt_dict_of r') "diag_mode" in
  stored = Some (VBool (py_bool_str (comboBox_diag_mode w))) /\
  (stored = Some (VBool true) <-> comboBox_diag_mode w <> EmptyString) /\
  (stored = Some (VBool false) <-> comboBox_diag_mode w = EmptyString) /\
  (comboBox_diag_mode w = "False" -> stored = Some (VBool true)).
Proof.
  intros Hgroup Hdiag Hrun stored.
  assert (Hs : stored = Some (VBool (py_bool_str (comboBox_diag_mode w)))).
  { apply update_opt_dict_returns in Hrun as [_ Hd].
    subst stored. unfold remote_opt. rewrite Hd, Hgroup.
    now rewrite build_remote_opts_diag_mode, Hdiag. }
  split; [exact Hs|]. rewrite Hs.
  destruct (comboBox_diag_mode w) as [|a s]; simpl;
    repeat split; intros; congruence.
Qed.

(** The theorem at the sample dialog with "False" selected. *)
Lemma diag_mode_is_text_truthiness_witness :
  groupBox_remote_opts (dialog_sample "30:00" "False") = true /\
  checkBox_diag_mode (dialog_sample "30:00" "False") = true /\
  remote_opt
    (opt_dict_of (snd (update_opt_dict float_sample id
                         (dialog_sample "30:00" "False") refs_sample)))
    "diag_mode"
  = Some (VBool true).
Proof.
  split; [reflexivity|]. split; [reflexivity|].
  exact (proj1 (diag_mode_is_text_truthiness float_sample id
                  (dialog_sample "30:00" "False") refs_sample _
                  eq_refl eq_refl eq_refl)).
Defined.

(** * Part III: further facts *)

(** ** Key lists *)

Lemma existsb_eqb_In (k : string) (l : list string) :
  existsb (String.eqb k) l = true <-> In k l.
Proof.
  rewrite existsb_exists. split.
  - intros (x & Hx & E). apply String.eqb_eq in E. now subst.
  - intros H. exists k. split; [exact H | apply String.eqb_refl].
Qed.

Lemma dict_mem_keys {A : Type} (d : pydict A) (k : string) :
  dict_mem d k = existsb (String.eqb k) (dict_keys d).
Proof.
  unfold dict_mem. induction d as [|[k' v] d IH]; simpl; [reflexivity|].
  rewrite (String.eqb_sym k k'). destruct (String.eqb k' k); auto.
Qed.

Lemma dict_keys_set_add {A : Type} (d : pydict A) (k : string) (v : A) :
  dict_keys (dict_set d k v) = add_key (dict_keys d) k.
Proof. rewrite dict_keys_set, dict_mem_keys. reflexivity. Qed.

Lemma dict_keys_remove_key {A : Type} (d : pydict A) (k : string) :
  dict_keys (dict_remove d k) = remove_key (dict_keys d) k.
Proof. apply dict_keys_remove. Qed.

Lemma remove_key_In (l : list string) (a k : string) :
  In k (remove_key l a) <-> In k l /\ k <> a.
Proof.
  unfold remove_key. rewrite filter_In, negb_true_iff, String.eqb_neq.
  tauto.
Qed.

Lemma remove_key_absent (l : list string) (a : string) :
  ~ In a l -> remove_key l a = l.
Proof.
  induction l as [|x l IH]; simpl; intros H; [reflexivity|].
  destruct (String.eqb_spec x a) as [->|Hne]; simpl.
  - exfalso. apply H. now left.
  - rewrite IH; [reflexivity|]. intros Hin. apply H. now right.
Qed.

Lemma remove_key_app (l1 l2 : list string) (a : string) :
  remove_key (l1 ++ l2) a = (remove_key l1 a ++ remove_key l2 a)%list.
Proof. apply List.filter_app. Qed.

Lemma remove_key_length (l : list string) (a : string) :
  List.NoDup l -> In a l -> S (length (remove_key l a)) = length l.
Proof.
  induction l as [|x l IH]; simpl; intros Hnd Hin; [destruct Hin|].
  inversion Hnd as [|? ? Hx Hl]; subst.
  destruct (String.eqb_spec x a) as [->|Hne]; simpl.
  - now rewrite remove_key_absent.
  - destruct Hin as [->|Hin]; [congruence|]. now rewrite IH.
Qed.

Lemma add_key_In (l : list string) (k x : string) :
  In x (add_key l k) <-> In x l \/ x = k.
Proof.
  unfold add_key. destruct (existsb (String.eqb k) l) eqn:E.
  - apply existsb_eqb_In in E. split; [auto|]. intros [H| ->]; auto.
  - rewrite in_app_iff. simpl. intuition.
Qed.

Lemma add_key_fresh (l : list string) (k : string) :
  ~ In k l -> add_key l k = (l ++ [k])%list.
Proof.
  intros H. unfold add_key.
  destruct (existsb (String.eqb k) l) eqn:E; [|reflexivity].
  apply existsb_eqb_In in E. contradiction.
Qed.

Lemma remove_key_same (k : string) : remove_key [k] k = [].
Proof. unfold remove_key. simpl. now rewrite String.eqb_refl. Qed.

Lemma remove_key_other (k a : string) : k <> a -> remove_key [k] a = [k].
Proof.
  intros H. apply String.eqb_neq in H. unfold remove_key. simpl.
  now rewrite H.
Qed.

(** ** More on renaming *)

(** The catalog after a renaming that went through, for any new-name entry. *)
Lemma rename_opt_set_returns (c c' : calc_opts) (calc_type old : string)
    (new : option string) :
  rename_opt_set calc_type old new c = (Ok tt, c') ->
  c' = c \/
  exists n d opts,
    new = Some n /\ old <> n /\
    dict_get c calc_type = Some d /\ dict_get d old = Some opts /\
    c' = dict_set c calc_type (dict_remove (dict_set d n opts) old).
Proof.
  destruct new as [n|]; [|intros [= <-]; now left].
  destruct (String.eqb_spec old n) as [->|Hne].
  - rewrite rename_opt_set_same. intros [= <-]. now left.
  - rewrite (rename_opt_set_differ c calc_type old n Hne).
    destruct (dict_get c calc_type) as [d|] eqn:Hd; [|discriminate].
    destruct (dict_get d old) as [opts|] eqn:Ho; [|discriminate].
    intros [= <-]. right. exists n, d, opts. auto.
Qed.

Lemma get_opt_set_other_kind (c : calc_opts) (k k' name : string)
    (d : pydict opt_dict) :
  k <> k' ->
  get_opt_set (dict_set c k d) k' name = get_opt_set c k' name.
Proof. intros Hne. now rewrite !get_opt_set_run, dict_get_set_ne. Qed.

Lemma dict_keys_set_present {A : Type} (d : pydict A) (k : string) (v v' : A) :
  dict_get d k = Some v -> dict_keys (dict_set d k v') = dict_keys d.
Proof.
  intros H. rewrite dict_keys_set. now rewrite (dict_mem_get d k v H).
Qed.

(** The lookups that a renaming leaves alone. *)
Lemma rename_opt_set_frame (c c' : calc_opts) (calc_type old : string)
    (new : option string) :
  rename_opt_set calc_type old new c = (Ok tt, c') ->
  (forall n, n <> old -> new <> Some n ->
             get_opt_set c' calc_type n = get_opt_set c calc_type n) /\
  (forall k n, k <> calc_type -> get_opt_set c' k n = get_opt_set c k n) /\
  dict_keys c' = dict_keys c.
Proof.
  intros Hrun.
  apply rename_opt_set_returns in Hrun
    as [->|(b & d & opts & -> & Hne & Hd & Ho & ->)]; [auto|].
  split; [|split].
  - intros n Hn Hb. rewrite get_opt_set_after_set, get_opt_set_run, Hd.
    rewrite dict_get_remove_ne, dict_get_set_ne by congruence. reflexivity.
  - intros k n Hk. now apply get_opt_set_other_kind.
  - now apply dict_keys_set_present with (v := d).
Qed.

(** The names of the calculation type after a renaming. *)
Lemma rename_opt_set_names (c c' : calc_opts) (calc_type old new : string)
    (names : list string) :
  old <> new ->
  avail_set_names c calc_type = Ok names ->
  rename_opt_set calc_type old (Some new) c = (Ok tt, c') ->
  avail_set_names c' calc_type = Ok (remove_key (add_key names new) old).
Proof.
  intros Hne Hnames Hrun.
  rewrite (rename_opt_set_differ c calc_type old new Hne) in Hrun.
  unfold avail_set_names, dict_item in Hnames.
  destruct (dict_get c calc_type) as [d|] eqn:Hd; [|discriminate].
  destruct (dict_get d old) as [opts|] eqn:Ho; [|discriminate].
  injection Hrun as <-. injection Hnames as <-.
  rewrite avail_set_names_after_set.
  now rewrite dict_keys_remove_key, dict_keys_set_add.
Qed.

(** X1. A renaming that goes through touches nothing but the two names: an
    option set under any other name of the calculation type, and every
    option set of every other calculation type, is the one it was, and the
    catalog lists the same calculation types in the same order. *)
Theorem rename_keeps_other_sets (c c' : calc_opts) (calc_type old : string)
    (new : option string) :
  rename_opt_set calc_type old new c = (Ok tt, c') ->
  (forall n, n <> old -> new <> Some n ->
             get_opt_set c' calc_type n = get_opt_set c calc_type n) /\
  (forall k n, k <> calc_type -> get_opt_set c' k n = get_opt_set c k n) /\
  dict_keys c' = dict_keys c.
Proof. apply rename_opt_set_frame. Qed.

(** The renaming of the seeded [fmap_xy] "test" set to "quick". *)
Lemma rename_keeps_other_sets_witness :
  rename_opt_set "fmap_xy" "test" (Some "quick") default_calc_opts
  = (Ok tt,
     snd (rename_opt_set "fmap_xy" "test" (Some "quick")
            default_calc_opts)) /\
  get_opt_set
    (snd (rename_opt_set "fmap_xy" "test" (Some "quick")
            default_calc_opts)) "fmap_xy" "production"
  = get_opt_set default_calc_opts "fmap_xy" "production".
Proof.
  split; [reflexivity|].
  refine (proj1 (rename_keeps_other_sets default_calc_opts _
                   "fmap_xy" "test" (Some "quick") eq_refl)
            "production" _ _); discriminate.
Defined.

(** X2. After a renaming of [old] to a different name [new] that goes
    through, the names of the calculation type are the former ones without
    [old], in their order, with [new] added at the end if it was not a name
    yet (and left where it was if it was). *)
Theorem rename_name_order (c c' : calc_opts) (calc_type old new : string)
    (names : list string) :
  old <> new ->
  avail_set_names c calc_type = Ok names ->
  rename_opt_set calc_type old (Some new) c = (Ok tt, c') ->
  avail_set_names c' calc_type = Ok (remove_key (add_key names new) old).
Proof. apply rename_opt_set_names. Qed.

(** The renaming of the seeded [xy_aper] "production" set to "final": the
    new name comes after "test". *)
Lemma rename_name_order_witness :
  "production" <> "final" /\
  avail_set_names default_calc_opts "xy_aper" = Ok ["production"; "test"] /\
  avail_set_names
    (snd (rename_opt_set "xy_aper" "production" (Some "final")
            default_calc_opts)) "xy_aper"
  = Ok ["test"; "final"].
Proof.
  split; [discriminate|]. split; [reflexivity|].
  apply (rename_name_order default_calc_opts _ "xy_aper" "production"
           "final" ["production"; "test"]).
  - discriminate.
  - reflexivity.
  - reflexivity.
Defined.

(** X3. Renaming onto a name that is taken loses one option set: with
    unique names before, the calculation type has one name fewer afterwards
    (the set that was under the new name is the one that is gone); renaming
    to a fresh name keeps the number of names. Names stay unique either
    way. *)
Theorem rename_name_count (c c' : calc_opts) (calc_type old new : string)
    (names names' : list string) :
  old <> new ->
  List.NoDup names ->
  avail_set_names c calc_type = Ok names ->
  rename_opt_set calc_type old (Some new) c = (Ok tt, c') ->
  avail_set_names c' calc_type = Ok names' ->
  List.NoDup names' /\
  (if existsb (String.eqb new) names
   then S (length names') = length names
   else length names' = length names).
Proof.
  intros Hne Hnd Hnames Hrun Hnames'.
  assert (Hold : In old names).
  { rewrite (rename_opt_set_differ c calc_type old new Hne) in Hrun.
    unfold avail_set_names, dict_item in Hnames.
    destruct (dict_get c calc_type) as [d|]; [|discriminate].
    injection Hnames as <-. apply dict_keys_get.
    destruct (dict_get d old); discriminate. }
  rewrite (rename_opt_set_names c c' calc_type old new names Hne Hnames Hrun)
    in Hnames'.
  injection Hnames' as <-. unfold add_key.
  destruct (existsb (String.eqb new) names) eqn:E.
  - split; [now apply List.NoDup_filter|]. now apply remove_key_length.
  - assert (Hnew : ~ In new names).
    { intros H. apply existsb_eqb_In in H. congruence. }
    rewrite remove_key_app. simpl.
    apply String.eqb_neq in Hne as Hb. rewrite String.eqb_sym in Hb.
    rewrite Hb. simpl. split.
    + apply NoDup_ListNoDup, NoDup_app. split; [|split].
      * apply NoDup_ListNoDup. now apply List.NoDup_filter.
      * intros x Hx Hx'. apply list_elem_of_In in Hx.
        apply list_elem_of_In in Hx'. destruct Hx' as [<-|[]].
        apply remove_key_In in Hx. tauto.
      * apply NoDup_singleton.
    + rewrite length_app. simpl.
      pose proof (remove_key_length names old Hnd Hold). lia.
Qed.

(** Renaming the seeded [xy_aper] "production" set onto "test". *)
Lemma rename_name_count_witness :
  "production" <> "test" /\
  List.NoDup ["production"; "test"] /\
  List.NoDup ["test"] /\ S (length ["test"]) = length ["production"; "test"].
Proof.
  split; [discriminate|].
  assert (Hnd : List.NoDup ["production"; "test"]).
  { repeat constructor; simpl; intuition discriminate. }
  split; [exact Hnd|].
  apply (rename_name_count default_calc_opts
           (snd (rename_opt_set "xy_aper" "production" (Some "test")
                   default_calc_opts))
           "xy_aper" "production" "test" ["production"; "test"] ["test"]).
  - discriminate.
  - exact Hnd.
  - reflexivity.
  - reflexivity.
  - reflexivity.
Defined.

(** Where the option set is after a renaming to a different name. *)
Lemma rename_opt_set_lookups (c c' : calc_opts) (calc_type a b : string) :
  a <> b ->
  rename_opt_set calc_type a (Some b) c = (Ok tt, c') ->
  get_opt_set c' calc_type a = Raise KeyError /\
  exists opts,
    get_opt_set c calc_type a = Ok opts /\
    get_opt_set c' calc_type b = Ok opts.
Proof.
  intros Hne Hrun.
  rewrite (rename_opt_set_differ c calc_type a b Hne) in Hrun.
  rewrite (get_opt_set_run c).
  destruct (dict_get c calc_type) as [d|]; [|discriminate].
  destruct (dict_get d a) as [opts|]; [|discriminate].
  injection Hrun as <-.
  rewrite !get_opt_set_after_set.
  rewrite dict_get_remove_eq, dict_get_remove_ne, dict_get_set_eq by auto.
  split; [reflexivity|]. now exists opts.
Qed.

(** X4. Renaming [a] to a fresh name [b] and back restores every lookup in
    the catalog; only the position of [a] among the names changes: it is
    now the last one. *)
Theorem rename_there_and_back (c c1 c2 : calc_opts) (calc_type a b : string)
    (names : list string) :
  a <> b ->
  avail_set_names c calc_type = Ok names ->
  ~ In b names ->
  rename_opt_set calc_type a (Some b) c = (Ok tt, c1) ->
  rename_opt_set calc_type b (Some a) c1 = (Ok tt, c2) ->
  (forall k n, get_opt_set c2 k n = get_opt_set c k n) /\
  avail_set_names c2 calc_type = Ok (remove_key names a ++ [a])%list.
Proof.
  intros Hne Hnames Hfresh H1 H2.
  assert (Hne' : b <> a) by congruence.
  pose proof (rename_opt_set_names _ _ _ _ _ _ Hne Hnames H1) as Hn1.
  pose proof (rename_opt_set_names _ _ _ _ _ _ Hne' Hn1 H2) as Hn2.
  split.
  - intros k n.
    destruct (rename_opt_set_frame _ _ _ _ _ H1) as (F1 & K1 & _).
    destruct (rename_opt_set_frame _ _ _ _ _ H2) as (F2 & K2 & _).
    destruct (String.eqb_spec k calc_type) as [->|Hk];
      [|now rewrite K2, K1].
    destruct (rename_opt_set_lookups c c1 calc_type a b Hne H1)
      as (Ea & opts & Eo & Eb).
    destruct (rename_opt_set_lookups c1 c2 calc_type b a Hne' H2)
      as (Eb2 & opts' & Eo' & Ea2).
    destruct (String.eqb_spec n a) as [->|Hna]; [congruence|].
    destruct (String.eqb_spec n b) as [->|Hnb].
    + rewrite Eb2. symmetry.
      unfold avail_set_names, dict_item in Hnames.
      rewrite get_opt_set_run.
      destruct (dict_get c calc_type) as [d|]; [|reflexivity].
      injection Hnames as <-.
      destruct (dict_get d b) eqn:E; [|reflexivity].
      exfalso. apply Hfresh, dict_keys_get. congruence.
    + rewrite F2, F1 by congruence. reflexivity.
  - rewrite Hn2. f_equal.
    rewrite (add_key_fresh names b Hfresh), remove_key_app.
    rewrite (remove_key_other b a Hne').
    rewrite add_key_fresh.
    + rewrite !remove_key_app, remove_key_same, (remove_key_other a b Hne).
      rewrite (remove_key_absent (remove_key names a) b).
      * now rewrite app_nil_r.
      * intros H. apply remove_key_In in H. tauto.
    + intros H. apply in_app_iff in H as [H|[H|[]]].
      * apply remove_key_In in H. tauto.
      * congruence.
Qed.

(** Renaming the seeded [cmap_xy] "test" set to "quick" and back. *)
Lemma rename_there_and_back_witness :
  "test" <> "quick" /\
  ~ In "quick" ["production"; "test"] /\
  (forall k n,
      get_opt_set
        (snd (rename_opt_set "cmap_xy" "quick" (Some "test")
                (snd (rename_opt_set "cmap_xy" "test" (Some "quick")
                        default_calc_opts)))) k n
      = get_opt_set default_calc_opts k n).
Proof.
  assert (Hfresh : ~ In "quick" ["production"; "test"]).
  { simpl. intuition discriminate. }
  split; [discriminate|]. split; [exact Hfresh|].
  refine (proj1 (rename_there_and_back default_calc_opts _ _
                   "cmap_xy" "test" "quick" ["production"; "test"]
                   _ eq_refl Hfresh eq_refl eq_refl)).
  discriminate.
Defined.

(** ** Updating a dictionary from a list of assignments *)

Section UpdateFacts.
Context {A : Type}.
Implicit Types (d other : pydict A) (k : string) (v : A).

Lemma dict_update_cons d k v other :
  dict_update d ((k, v) :: other) = dict_update (dict_set d k v) other.
Proof. reflexivity. Qed.

Lemma dict_update_app d other1 other2 :
  dict_update d (other1 ++ other2)
  = dict_update (dict_update d other1) other2.
Proof. unfold dict_update. apply fold_left_app. Qed.

(** A key that [other] does not assign keeps its binding. *)
Lemma dict_update_get_other d other k :
  ~ In k (dict_keys other) ->
  dict_get (dict_update d other) k = dict_get d k.
Proof.
  revert d. induction other as [|[k' v'] other IH]; intros d Hk;
    [reflexivity|].
  rewrite dict_update_cons, IH by (intros H; apply Hk; now right).
  apply dict_get_set_ne. intros ->. apply Hk. now left.
Qed.

(** A key that [other] assigns once is bound to the value assigned. *)
Lemma dict_update_get_assigned d other k v :
  List.NoDup (dict_keys other) -> In (k, v) other ->
  dict_get (dict_update d other) k = Some v.
Proof.
  revert d. induction other as [|[k' v'] other IH]; intros d Hnd Hin;
    [destruct Hin|].
  inversion Hnd as [|? ? Hk' Hnd']; subst. rewrite dict_update_cons.
  destruct Hin as [[= -> ->]|Hin].
  - rewrite dict_update_get_other by exact Hk'. apply dict_get_set_eq.
  - now apply IH.
Qed.

(** The key list after an update: new keys are appended in the order of
    their first assignment. *)
Lemma dict_update_keys d other :
  dict_keys (dict_update d other)
  = fold_left add_key (dict_keys other) (dict_keys d).
Proof.
  revert d. induction other as [|[k' v'] other IH]; intros d;
    [reflexivity|].
  rewrite dict_update_cons, IH, dict_keys_set_add. reflexivity.
Qed.

(** Assigning to a key the value it has changes nothing. *)
Lemma dict_set_same d k v : dict_get d k = Some v -> dict_set d k v = d.
Proof.
  induction d as [|[k' v'] d IH]; simpl; [discriminate|].
  destruct (String.eqb k' k) eqn:E.
  - now intros [= ->].
  - intros H. now rewrite IH.
Qed.

Lemma dict_update_same d other :
  (forall k v, In (k, v) other -> dict_get d k = Some v) ->
  dict_update d other = d.
Proof.
  induction other as [|[k' v'] other IH]; intros H; [reflexivity|].
  rewrite dict_update_cons, dict_set_same by (apply H; now left).
  apply IH. intros k v Hin. apply H. now right.
Qed.

(** Updating twice from the same list is updating once. *)
Lemma dict_update_twice d other :
  List.NoDup (dict_keys other) ->
  dict_update (dict_update d other) other = dict_update d other.
Proof.
  intros Hnd. apply dict_update_same. intros k v Hin.
  now apply dict_update_get_assigned.
Qed.

(** Added keys never disturb a key list that has them all. *)
Lemma fold_add_key_present (l keys : list string) :
  (forall k, In k keys -> In k l) -> fold_left add_key keys l = l.
Proof.
  induction keys as [|k keys IH]; intros H; [reflexivity|]. simpl.
  unfold add_key at 2.
  assert (E : existsb (String.eqb k) l = true)
    by (apply existsb_eqb_In, H; now left).
  rewrite E. apply IH. intros k' Hk'. apply H. now right.
Qed.

End UpdateFacts.

(** ** What a commit of the map dialog writes *)

Section CommitFacts.
Variable float : string -> option pyfloat.
Variable times_1e_2 : pyfloat -> pyfloat.

(** The keys that [update_fields] assigns are the ones the constructor
    reads, in the same order. *)
Lemma field_values_keys (w : DialogCalcOptMap) (kvs : pydict value) :
  field_values float times_1e_2 w = Some kvs ->
  dict_keys kvs = keys_read (map_dialog_class w).
Proof.
  unfold field_values, map_dialog_class.
  destruct (float (lineEdit_xmin w)); [|discriminate].
  destruct (float (lineEdit_xmax w)); [|discriminate].
  destruct (float (lineEdit_x_offset w)),
    (float (lineEdit_y_offset w)), (float (lineEdit_delta_offset w)),
    (is_xy w); simpl;
    repeat match goal with
           | |- context [float ?s] => destruct (float s); simpl
           end;
    try discriminate; now intros [= <-].
Qed.

(** [update_fields] returns exactly when every text parses, and then it has
    made the assignments of [field_values], in order. *)
Lemma update_fields_returns (w : DialogCalcOptMap) (r : dialog_refs)
    (kvs : pydict value) :
  field_values float times_1e_2 w = Some kvs ->
  update_fields float times_1e_2 w r =
  (Ok tt, {| names_new := names_new r;
             opt_dict_of := dict_update (opt_dict_of r) kvs |}).
Proof.
  unfold field_values, update_fields.
  destruct (float (lineEdit_xmin w)) eqn:E1; [|discriminate].
  destruct (float (lineEdit_xmax w)) eqn:E2; [|discriminate].
  destruct (is_xy w).
  - destruct (float (lineEdit_ymin w)) eqn:E3; [|discriminate].
    destruct (float (lineEdit_ymax w)) eqn:E4; [|discriminate].
    destruct (float (lineEdit_x_offset w)) eqn:E5; [|discriminate].
    destruct (float (lineEdit_y_offset w)) eqn:E6; [|discriminate].
    destruct (float (lineEdit_delta_offset w)) eqn:E7; [|discriminate].
    intros [= <-].
    cbv [mbind stmt_bind set_opt write float_of read].
    repeat (first [rewrite E1 | rewrite E2 | rewrite E3 | rewrite E4
                  | rewrite E5 | rewrite E6 | rewrite E7];
            cbv beta iota).
    reflexivity.
  - destruct (float (lineEdit_delta_min w)) eqn:E3; [|discriminate].
    destruct (float (lineEdit_delta_max w)) eqn:E4; [|discriminate].
    destruct (float (lineEdit_x_offset w)) eqn:E5; [|discriminate].
    destruct (float (lineEdit_y_offset w)) eqn:E6; [|discriminate].
    destruct (float (lineEdit_delta_offset w)) eqn:E7; [|discriminate].
    intros [= <-].
    cbv [mbind stmt_bind set_opt write float_of read].
    repeat (first [rewrite E1 | rewrite E2 | rewrite E3 | rewrite E4
                  | rewrite E5 | rewrite E6 | rewrite E7];
            cbv beta iota).
    reflexivity.
Qed.

End CommitFacts.

(** ** Frames of the dialog statements *)

Lemma frame_stmt_set_opt (keys : list string) (k : string) (v : value) :
  In k keys -> frame_stmt keys (set_opt k v).
Proof.
  intros Hk r k' Hk'. simpl. apply dict_get_set_ne. congruence.
Qed.

Lemma frame_stmt_read {A : Type} (keys : list string)
    (e : dialog_refs -> result A) :
  frame_stmt keys (read e).
Proof. intros r k _. reflexivity. Qed.

Lemma frame_stmt_set_new_name (keys : list string) (s : string) :
  frame_stmt keys (set_new_name s).
Proof. intros r k _. reflexivity. Qed.

Lemma frame_stmt_bind {A B : Type} (keys : list string)
    (m : stmt dialog_refs A) (f : A -> stmt dialog_refs B) :
  frame_stmt keys m -> (forall a, frame_stmt keys (f a)) ->
  frame_stmt keys (m ≫= f).
Proof.
  intros Hm Hf r k Hk. unfold mbind, stmt_bind.
  specialize (Hm r k Hk). destruct (m r) as [[a|e] r1]; simpl in *.
  - now rewrite (Hf a r1 k Hk).
  - exact Hm.
Qed.

Lemma frame_stmt_update_remote_opts (keys : list string)
    (w : DialogCalcOptMap) :
  In "remote_opts" keys -> frame_stmt keys (update_remote_opts w).
Proof.
  intros Hk r k Hk'. unfold update_remote_opts.
  destruct (groupBox_remote_opts w).
  - exact (frame_stmt_set_opt keys _ _ Hk r k Hk').
  - simpl. destruct (dict_mem (opt_dict_of r) "remote_opts");
      [|reflexivity].
    apply dict_get_remove_ne. congruence.
Qed.

(** Solves a frame goal on a sequence of assignments and parses. *)
Ltac frame_steps :=
  repeat first [ apply frame_stmt_bind; [|intros ?]
               | apply frame_stmt_read
               | apply frame_stmt_set_new_name
               | apply frame_stmt_set_opt; simpl; tauto ].

Section CommitFrames.
Variable float : string -> option pyfloat.
Variable times_1e_2 : pyfloat -> pyfloat.

Lemma frame_stmt_update_fields (w : DialogCalcOptMap) :
  frame_stmt (keys_read (map_dialog_class w))
    (update_fields float times_1e_2 w).
Proof.
  unfold update_fields, map_dialog_class, float_of.
  destruct (is_xy w); frame_steps.
Qed.

Lemma frame_stmt_update_opt_dict (w : DialogCalcOptMap) :
  frame_stmt ("remote_opts" :: keys_read (map_dialog_class w))
    (update_opt_dict float times_1e_2 w).
Proof.
  unfold update_opt_dict.
  apply frame_stmt_bind; [apply frame_stmt_set_new_name | intros _].
  apply frame_stmt_bind; [|intros _].
  - intros r k Hk. apply frame_stmt_update_fields.
    intros H. apply Hk. now right.
  - apply frame_stmt_update_remote_opts. now left.
Qed.

(** [update_fields] raises when a text does not parse. *)
Lemma update_fields_raises (w : DialogCalcOptMap) (r : dialog_refs) :
  field_values float times_1e_2 w = None ->
  fst (update_fields float times_1e_2 w r) = Raise ValueError.
Proof.
  intros Hnone.
  destruct (update_fields float times_1e_2 w r) as [[[]|e] r1] eqn:Hrun.
  - exfalso. revert Hnone Hrun. unfold field_values, update_fields.
    cbv [mbind stmt_bind set_opt write float_of read option_bind].
    destruct (float (lineEdit_xmin w)); [|discriminate].
    destruct (float (lineEdit_xmax w)); [|discriminate].
    destruct (is_xy w).
    + destruct (float (lineEdit_ymin w)); [|discriminate].
      destruct (float (lineEdit_ymax w)); [|discriminate].
      destruct (float (lineEdit_x_offset w)); [|discriminate].
      destruct (float (lineEdit_y_offset w)); [|discriminate].
      destruct (float (lineEdit_delta_offset w)); discriminate.
    + destruct (float (lineEdit_delta_min w)); [|discriminate].
      destruct (float (lineEdit_delta_max w)); [|discriminate].
      destruct (float (lineEdit_x_offset w)); [|discriminate].
      destruct (float (lineEdit_y_offset w)); [|discriminate].
      destruct (float (lineEdit_delta_offset w)); discriminate.
  - destruct (field_stmt_update_fields float times_1e_2 w r) as [_ He].
    rewrite Hrun in He. simpl in *. now destruct (He e eq_refl) as [-> _].
Qed.

(** The option set after the remote-option part of a commit. *)
Lemma update_remote_opts_result (w : DialogCalcOptMap) (r : dialog_refs) :
  update_remote_opts w r =
  (Ok tt,
   {| names_new := names_new r;
      opt_dict_of :=
        if groupBox_remote_opts w
        then dict_set (opt_dict_of r) "remote_opts"
               (VDict (build_remote_opts w))
        else dict_remove (opt_dict_of r) "remote_opts" |}).
Proof.
  unfold update_remote_opts, set_opt, del_opt_if_present, write.
  destruct (groupBox_remote_opts w); [reflexivity|].
  do 2 f_equal. unfold dict_mem.
  destruct (dict_get (opt_dict_of r) "remote_opts") eqn:E; [reflexivity|].
  clear -E. induction (opt_dict_of r) as [|[k v] d IH]; [reflexivity|].
  simpl in *. destruct (String.eqb k "remote_opts"); [discriminate|].
  now rewrite <- IH.
Qed.

(** A commit returns exactly when every text parses; the result is then
    the name, the field assignments and the remote options, in this
    order. *)
Lemma update_opt_dict_result (w : DialogCalcOptMap) (r : dialog_refs) :
  match field_values float times_1e_2 w with
  | Some kvs =>
      update_opt_dict float times_1e_2 w r =
      (Ok tt,
       {| names_new := Some (lineEdit_opt_set_name w);
          opt_dict_of :=
            let d := dict_update (opt_dict_of r) kvs in
            if groupBox_remote_opts w
            then dict_set d "remote_opts" (VDict (build_remote_opts w))
            else dict_remove d "remote_opts" |})
  | None =>
      fst (update_opt_dict float times_1e_2 w r) = Raise ValueError
  end.
Proof.
  unfold update_opt_dict. cbv [mbind stmt_bind set_new_name write].
  set (r1 := {| names_new := Some _; opt_dict_of := _ |}).
  destruct (field_values float times_1e_2 w) as [kvs|] eqn:Hv.
  - rewrite (update_fields_returns float times_1e_2 w r1 kvs Hv).
    now rewrite update_remote_opts_result.
  - pose proof (update_fields_raises w r1 Hv) as Hr.
    destruct (update_fields float times_1e_2 w r1) as [[[]|e] r2];
      simpl in *; congruence.
Qed.

Lemma dict_remove_twice {A : Type} (d : pydict A) (k : string) :
  dict_remove (dict_remove d k) k = dict_remove d k.
Proof.
  induction d as [|[k' v] d IH]; simpl; [reflexivity|].
  destruct (String.eqb k' k) eqn:E; simpl; [exact IH|].
  now rewrite E, IH.
Qed.

Lemma keys_read_NoDup (dialog : dialog_class) :
  List.NoDup (keys_read dialog).
Proof.
  destruct dialog; simpl;
    repeat (constructor; [simpl; intuition discriminate|]); constructor.
Qed.

Lemma keys_read_not_remote (dialog : dialog_class) :
  ~ In "remote_opts" (keys_read dialog).
Proof. destruct dialog; simpl; intuition discriminate. Qed.

(** What a commit that returns has stored. *)
Lemma update_opt_dict_stored (w : DialogCalcOptMap) (r r' : dialog_refs) :
  update_opt_dict float times_1e_2 w r = (Ok tt, r') ->
  names_new r' = Some (lineEdit_opt_set_name w) /\
  exists kvs,
    field_values float times_1e_2 w = Some kvs /\
    dict_keys kvs = keys_read (map_dialog_class w) /\
    forall k v, In (k, v) kvs -> dict_get (opt_dict_of r') k = Some v.
Proof.
  intros Hrun. pose proof (update_opt_dict_result w r) as Hres.
  destruct (field_values float times_1e_2 w) as [kvs|] eqn:Hv;
    [|rewrite Hrun in Hres; discriminate].
  rewrite Hrun in Hres. injection Hres as ->. split; [reflexivity|].
  exists kvs. pose proof (field_values_keys float times_1e_2 w kvs Hv) as Hk.
  split; [reflexivity|]. split; [exact Hk|]. intros k v Hin. simpl.
  assert (Hne : "remote_opts" <> k).
  { intros <-. apply (keys_read_not_remote (map_dialog_class w)).
    rewrite <- Hk. apply in_map_iff. now exists ("remote_opts", v). }
  assert (Hget : dict_get (dict_update (opt_dict_of r) kvs) k = Some v).
  { apply dict_update_get_assigned; [|exact Hin].
    rewrite Hk. apply keys_read_NoDup. }
  destruct (groupBox_remote_opts w).
  - now rewrite dict_get_set_ne.
  - now rewrite dict_get_remove_ne.
Qed.

(** X5. A commit of the map dialog that returns has stored what the
    widgets show: every text of a float field parsed, each of the dialog's
    keys holds the value of its widget, and the new name is the text of the
    name field. *)
Theorem commit_stores_widget_values (w : DialogCalcOptMap)
    (r r' : dialog_refs) :
  update_opt_dict float times_1e_2 w r = (Ok tt, r') ->
  names_new r' = Some (lineEdit_opt_set_name w) /\
  exists kvs,
    field_values float times_1e_2 w = Some kvs /\
    dict_keys kvs = keys_read (map_dialog_class w) /\
    forall k v, In (k, v) kvs -> dict_get (opt_dict_of r') k = Some v.
Proof. apply update_opt_dict_stored. Qed.

(** X6. A commit of the map dialog, whether it returns or raises, leaves
    alone every key of the option set other than the ones the dialog reads
    and [remote_opts]; the momentum dialog, for one, never writes [ny]. *)
Theorem commit_keeps_other_keys (w : DialogCalcOptMap) (r : dialog_refs)
    (k : string) :
  ~ In k (keys_read (map_dialog_class w)) ->
  k <> "remote_opts" ->
  dict_get (opt_dict_of (snd (update_opt_dict float times_1e_2 w r))) k
  = dict_get (opt_dict_of r) k.
Proof.
  intros Hk Hr. apply frame_stmt_update_opt_dict.
  intros [H|H]; [congruence | contradiction].
Qed.

(** X7. A commit that returns on an option set that has every key the
    dialog reads leaves the key list as it was, names and order, apart from
    [remote_opts]: appended if the remote options are on and the key was
    not there, removed if they are off. *)
Theorem commit_keeps_key_order (w : DialogCalcOptMap) (r r' : dialog_refs) :
  update_opt_dict float times_1e_2 w r = (Ok tt, r') ->
  (forall k, In k (keys_read (map_dialog_class w)) ->
             In k (dict_keys (opt_dict_of r))) ->
  dict_keys (opt_dict_of r') =
  if groupBox_remote_opts w
  then add_key (dict_keys (opt_dict_of r)) "remote_opts"
  else remove_key (dict_keys (opt_dict_of r)) "remote_opts".
Proof.
  intros Hrun Hkeys. pose proof (update_opt_dict_result w r) as Hres.
  destruct (field_values float times_1e_2 w) as [kvs|] eqn:Hv;
    [|rewrite Hrun in Hres; discriminate].
  rewrite Hrun in Hres. injection Hres as ->. simpl.
  assert (E : dict_keys (dict_update (opt_dict_of r) kvs)
              = dict_keys (opt_dict_of r)).
  { rewrite dict_update_keys, (field_values_keys float times_1e_2 w kvs Hv).
    now apply fold_add_key_present. }
  destruct (groupBox_remote_opts w).
  - now rewrite dict_keys_set_add, E.
  - now rewrite dict_keys_remove_key, E.
Qed.

(** X8. A commit of the map dialog raises exactly when the text of a float
    field does not parse, and only [ValueError]. By then the new name is
    recorded and the turn count written, while [remote_opts] is as it was:
    the option set is left half updated. *)
Theorem commit_failure_is_partial (w : DialogCalcOptMap) (r : dialog_refs) :
  (field_values float times_1e_2 w = None <->
   exists e, fst (update_opt_dict float times_1e_2 w r) = Raise e) /\
  forall e,
    fst (update_opt_dict float times_1e_2 w r) = Raise e ->
    let r' := snd (update_opt_dict float times_1e_2 w r) in
    e = ValueError /\
    names_new r' = Some (lineEdit_opt_set_name w) /\
    dict_get (opt_dict_of r') "n_turns" = Some (VInt (spinBox_n_turns w)) /\
    dict_get (opt_dict_of r') "remote_opts"
    = dict_get (opt_dict_of r) "remote_opts".
Proof.
  pose proof (update_opt_dict_result w r) as Hres.
  assert (Hiff : field_values float times_1e_2 w = None <->
            exists e, fst (update_opt_dict float times_1e_2 w r) = Raise e).
  { destruct (field_values float times_1e_2 w) as [kvs|].
    - rewrite Hres. simpl. split; [discriminate | intros [e He]; discriminate].
    - split; eauto. }
  split; [exact Hiff|]. intros e He r'.
  assert (Hnone : field_values float times_1e_2 w = None)
    by (apply Hiff; eauto).
  rewrite Hnone in Hres. subst r'. revert He Hres.
  unfold update_opt_dict. cbv [mbind stmt_bind set_new_name write].
  set (r1 := {| names_new := Some _; opt_dict_of := _ |}).
  destruct (field_stmt_update_fields float times_1e_2 w r1) as [Hn _].
  pose proof (frame_stmt_update_fields w r1 "remote_opts"
                (keys_read_not_remote _)) as Hf.
  assert (Hturns :
            dict_get (opt_dict_of (snd (update_fields float times_1e_2 w r1)))
              "n_turns" = Some (VInt (spinBox_n_turns w))).
  { unfold update_fields. unfold mbind at 1. unfold stmt_bind at 1.
    unfold set_opt at 1. unfold write at 1. cbv beta iota.
    set (r2 := {| names_new := _ |}).
    match goal with
    | |- dict_get (opt_dict_of (snd (?m r2))) _ = _ =>
        assert (Hrest : frame_stmt
                  (tl (keys_read (map_dialog_class w))) m)
    end.
    { unfold map_dialog_class, float_of. destruct (is_xy w); frame_steps. }
    rewrite Hrest.
    - subst r2. simpl. apply dict_get_set_eq.
    - unfold map_dialog_class. destruct (is_xy w); simpl;
        intuition discriminate. }
  destruct (update_fields float times_1e_2 w r1) as [[[]|e'] r2];
    simpl in *.
  - rewrite update_remote_opts_result. discriminate.
  - intros [= <-] [= ->]. subst r1. simpl in *. auto.
Qed.

(** X9. Committing twice is committing once: a commit that returns,
    repeated on its own result with the widgets untouched, returns and
    changes nothing. *)
Theorem commit_twice (w : DialogCalcOptMap) (r r' : dialog_refs) :
  update_opt_dict float times_1e_2 w r = (Ok tt, r') ->
  update_opt_dict float times_1e_2 w r' = (Ok tt, r').
Proof.
  intros Hrun.
  destruct (update_opt_dict_stored w r r' Hrun)
    as (Hname & kvs & Hv & Hk & Hget).
  pose proof (update_opt_dict_result w r') as Hres. rewrite Hv in Hres.
  rewrite Hres. f_equal.
  pose proof (update_opt_dict_result w r) as Hres0. rewrite Hv in Hres0.
  rewrite Hrun in Hres0. injection Hres0 as ->. simpl in *. f_equal.
  rewrite (dict_update_same _ kvs Hget).
  destruct (groupBox_remote_opts w).
  - apply dict_set_set.
  - apply dict_remove_twice.
Qed.

End CommitFrames.

(** ** The time text and the outcome of a commit *)

(** C8, as the code has it. A commit of the dialog returns or raises
    according to its float fields alone: it raises exactly when one of
    them does not parse, and then [ValueError]; any other text in the time
    field gives the same outcome, so the time text is never a reason to
    reject. When the commit returns, [remote_opts] has no ['time'] entry
    if the remote options or the time box are unchecked or the time text
    is blank; otherwise the entry is the stripped text, in whatever format
    it is. *)
Theorem time_stored_without_format_check
    (float : string -> option pyfloat) (times_1e_2 : pyfloat -> pyfloat)
    (w : DialogCalcOptMap) (r : dialog_refs) :
  (field_values float times_1e_2 w = None <->
   exists e, fst (update_opt_dict float times_1e_2 w r) = Raise e) /\
  (forall e, fst (update_opt_dict float times_1e_2 w r) = Raise e ->
             e = ValueError) /\
  (forall t,
      fst (update_opt_dict float times_1e_2 (lineEdit_time_setText w t) r)
      = fst (update_opt_dict float times_1e_2 w r)) /\
  (forall r',
      update_opt_dict float times_1e_2 w r = (Ok tt, r') ->
      remote_opt (opt_dict_of r') "time" =
      (if groupBox_remote_opts w && checkBox_time w
          && negb (blank (lineEdit_time w))
       then Some (VStr (py_strip (lineEdit_time w)))
       else None)).
Proof.
  pose proof (update_opt_dict_result float times_1e_2 w r) as Hres.
  assert (Ht : forall t,
             field_values float times_1e_2 (lineEdit_time_setText w t)
             = field_values float times_1e_2 w) by reflexivity.
  split; [|split; [|split]].
  - destruct (field_values float times_1e_2 w) as [kvs|].
    + rewrite Hres. split; [discriminate | intros [e He]; discriminate He].
    + split; [intros _; now exists ValueError | reflexivity].
  - intros e He.
    destruct (field_values float times_1e_2 w) as [kvs|];
      [rewrite Hres in He; discriminate He | congruence].
  - intros t.
    pose proof (update_opt_dict_result float times_1e_2
                  (lineEdit_time_setText w t) r) as Hres'.
    rewrite Ht in Hres'.
    destruct (field_values float times_1e_2 w) as [kvs|];
      [now rewrite Hres, Hres' | congruence].
  - intros r' Hrun. apply update_opt_dict_returns in Hrun as [_ Hd].
    unfold remote_opt. rewrite Hd.
    destruct (groupBox_remote_opts w); [|reflexivity].
    apply build_remote_opts_time.
Qed.

(** The theorem at the sample dialog with a blank time text. *)
Lemma time_stored_without_format_check_witness :
  update_opt_dict float_sample id (dialog_sample "  " "True") refs_sample
  = (Ok tt, snd (update_opt_dict float_sample id
                   (dialog_sample "  " "True") refs_sample)) /\
  remote_opt
    (opt_dict_of (snd (update_opt_dict float_sample id
                         (dialog_sample "  " "True") refs_sample))) "time"
  = None.
Proof.
  split; [reflexivity|].
  exact (proj2 (proj2 (proj2
           (time_stored_without_format_check float_sample id
              (dialog_sample "  " "True") refs_sample))) _ eq_refl).
Defined.

(** C8, as the specification states it, does not hold: with the text "abc"
    in the time field, which is not of the form HH:MM, the commit returns
    normally and stores the text. *)
Lemma time_text_abc_is_stored :
  spec_matches_HH_MM (py_strip " abc ") = false /\
  fst (update_opt_dict float_sample id (dialog_sample " abc " "True")
         refs_sample) = Ok tt /\
  remote_opt
    (opt_dict_of (snd (update_opt_dict float_sample id
                         (dialog_sample " abc " "True") refs_sample))) "time"
  = Some (VStr "abc").
Proof. repeat split; reflexivity. Qed.

(** The sample xy dialog committed on the seeded [fmap_xy] production
    set. *)
Lemma commit_stores_widget_values_witness :
  update_opt_dict float_sample id (dialog_sample "30:00" "True") refs_sample
  = (Ok tt, snd (update_opt_dict float_sample id
                   (dialog_sample "30:00" "True") refs_sample)) /\
  names_new (snd (update_opt_dict float_sample id
                    (dialog_sample "30:00" "True") refs_sample))
  = Some "production".
Proof.
  split; [reflexivity|].
  exact (proj1 (commit_stores_widget_values float_sample id
                  (dialog_sample "30:00" "True") refs_sample _ eq_refl)).
Defined.

(** The sample momentum dialog committed on the seeded [fmap_px] "test"
    set: the stray [ny] stays. *)
Lemma commit_keeps_other_keys_witness :
  ~ In "ny" (keys_read (map_dialog_class dialog_sample_px)) /\
  "ny" <> "remote_opts" /\
  dict_get (opt_dict_of (snd (update_opt_dict float_sample id
                                dialog_sample_px refs_sample_px))) "ny"
  = Some (VInt 21).
Proof.
  assert (H : ~ In "ny" (keys_read (map_dialog_class dialog_sample_px)))
    by (simpl; intuition discriminate).
  split; [exact H|]. split; [discriminate|].
  rewrite (commit_keeps_other_keys float_sample id dialog_sample_px
             refs_sample_px "ny" H); [reflexivity | discriminate].
Defined.

(** The sample xy dialog committed on the seeded [fmap_xy] production set,
    which has every key of the dialog. *)
Lemma commit_keeps_key_order_witness :
  (forall k, In k (keys_read (map_dialog_class (dialog_sample "30:00" "True")))
             -> In k (dict_keys (opt_dict_of refs_sample))) /\
  dict_keys (opt_dict_of (snd (update_opt_dict float_sample id
                                 (dialog_sample "30:00" "True") refs_sample)))
  = (dict_keys fmap_xy_production ++ ["remote_opts"])%list.
Proof.
  assert (H : forall k,
             In k (keys_read (map_dialog_class (dialog_sample "30:00" "True")))
             -> In k (dict_keys (opt_dict_of refs_sample))).
  { intros k Hk. simpl in Hk. simpl.
    repeat (destruct Hk as [<-|Hk]; [tauto|]). destruct Hk. }
  split; [exact H|].
  exact (commit_keeps_key_order float_sample id
           (dialog_sample "30:00" "True") refs_sample _ eq_refl H).
Defined.

(** The sample xy dialog with a parser that rejects every text. *)
Lemma commit_failure_is_partial_witness :
  fst (update_opt_dict float_reject id (dialog_sample "30:00" "True")
         refs_sample) = Raise ValueError /\
  names_new (snd (update_opt_dict float_reject id
                    (dialog_sample "30:00" "True") refs_sample))
  = Some "production" /\
  dict_get (opt_dict_of (snd (update_opt_dict float_reject id
                                (dialog_sample "30:00" "True") refs_sample)))
    "remote_opts" = None.
Proof.
  split; [reflexivity|].
  destruct (proj2 (commit_failure_is_partial float_reject id
                     (dialog_sample "30:00" "True") refs_sample)
              ValueError eq_refl) as (_ & Hn & _ & Hr).
  split; [exact Hn | exact Hr].
Defined.

(** The sample xy dialog committed twice. *)
Lemma commit_twice_witness :
  update_opt_dict float_sample id (dialog_sample "30:00" "True")
    (snd (update_opt_dict float_sample id (dialog_sample "30:00" "True")
            refs_sample))
  = (Ok tt, snd (update_opt_dict float_sample id
                   (dialog_sample "30:00" "True") refs_sample)).
Proof.
  exact (commit_twice float_sample id (dialog_sample "30:00" "True")
           refs_sample _ eq_refl).
Defined.

(** ** The remote options that a commit builds *)

Lemma build_remote_opts_entries (w : DialogCalcOptMap) :
  dict_keys (build_remote_opts w) = remote_keys w /\
  dict_get (build_remote_opts w) "partition"
  = (if checkBox_partition w then Some (VStr (comboBox_partition w))
     else None) /\
  dict_get (build_remote_opts w) "ntasks"
  = (if checkBox_ntasks w then Some (VInt (spinBox_ntasks w)) else None).
Proof.
  unfold build_remote_opts, remote_keys. rewrite <- py_strip_blank.
  set (t := py_strip (lineEdit_time w)).
  destruct (checkBox_partition w), (checkBox_ntasks w), (checkBox_time w),
    (py_bool_str t), (checkBox_diag_mode w); repeat split; reflexivity.
Qed.

(** X10. The [remote_opts] dictionary of a commit is sparse and ordered:
    its keys are those of [partition], [ntasks], [time], [diag_mode] whose
    box is checked (the time only if its text is not blank), in this order;
    the partition is the selector's text and the task count is the spin
    box's value, whatever they are. *)
Theorem remote_opts_shape (w : DialogCalcOptMap) :
  dict_keys (build_remote_opts w) = remote_keys w /\
  dict_get (build_remote_opts w) "partition"
  = (if checkBox_partition w then Some (VStr (comboBox_partition w))
     else None) /\
  dict_get (build_remote_opts w) "ntasks"
  = (if checkBox_ntasks w then Some (VInt (spinBox_ntasks w)) else None).
Proof. apply build_remote_opts_entries. Qed.

(** ** Stripping *)

Lemma lstrip_head (l : list ascii) :
  match lstrip l with
  | [] => True
  | a :: _ => py_isspace a = false
  end.
Proof.
  induction l as [|a l IH]; simpl; [exact I|].
  destruct (py_isspace a) eqn:E; [exact IH | exact E].
Qed.

Lemma lstrip_fixed (a : ascii) (l : list ascii) :
  py_isspace a = false -> lstrip (a :: l) = a :: l.
Proof. intros H. simpl. now rewrite H. Qed.

(** Stripping on the left stops at the latest at a character that is not
    white space. *)
Lemma lstrip_snoc (x : list ascii) (a : ascii) :
  py_isspace a = false ->
  exists y, lstrip (x ++ [a]) = (y ++ [a])%list /\
            lstrip (y ++ [a]) = (y ++ [a])%list.
Proof.
  intros Ha. induction x as [|b x IH]; simpl.
  - exists []. simpl. now rewrite Ha.
  - destruct (py_isspace b) eqn:Eb; [exact IH|].
    exists (b :: x). simpl. now rewrite Eb.
Qed.

(** The shape of a stripped list of characters. *)
Lemma strip_shape (l : list ascii) :
  let s := rev (lstrip (rev (lstrip l))) in
  s = [] \/
  exists a y, s = a :: rev y /\ py_isspace a = false /\
              lstrip (y ++ [a]) = (y ++ [a])%list.
Proof.
  simpl. pose proof (lstrip_head l) as Hh.
  destruct (lstrip l) as [|a m]; [now left|]. right.
  simpl rev. destruct (lstrip_snoc (rev m) a Hh) as (y & -> & Hy).
  exists a, y. rewrite rev_app_distr. simpl. auto.
Qed.

Lemma strip_list_twice (l : list ascii) :
  let s := rev (lstrip (rev (lstrip l))) in
  rev (lstrip (rev (lstrip s))) = s.
Proof.
  simpl. destruct (strip_shape l) as [->|(a & y & -> & Ha & Hy)];
    [reflexivity|].
  rewrite (lstrip_fixed a (rev y) Ha). simpl rev. rewrite rev_involutive.
  rewrite Hy, rev_app_distr. reflexivity.
Qed.

Lemma strip_list_ends (l : list ascii) :
  match rev (lstrip (rev (lstrip l))) with
  | [] => True
  | a :: m => py_isspace a = false /\ py_isspace (List.last m a) = false
  end.
Proof.
  destruct (strip_shape l) as [->|(a & y & -> & Ha & Hy)]; [exact I|].
  split; [exact Ha|].
  destruct y as [|b y]; [exact Ha|].
  simpl rev. rewrite List.last_last.
  simpl in Hy. destruct (py_isspace b) eqn:Eb; [|reflexivity].
  exfalso. pose proof (lstrip_head (y ++ [a])) as Hh. rewrite Hy in Hh.
  congruence.
Qed.

(** Stripping a stripped text changes nothing. *)
Lemma py_strip_twice (s : string) : py_strip (py_strip s) = py_strip s.
Proof.
  unfold py_strip. rewrite list_ascii_of_string_of_list_ascii.
  now rewrite strip_list_twice.
Qed.

Lemma py_strip_outer_space_free (s : string) :
  outer_space_free (py_strip s) = true.
Proof.
  unfold outer_space_free, py_strip.
  rewrite list_ascii_of_string_of_list_ascii.
  pose proof (strip_list_ends (list_ascii_of_string s)) as H.
  destruct (rev (lstrip (rev (lstrip (list_ascii_of_string s)))))
    as [|a m]; [reflexivity|].
  destruct H as [-> ->]. reflexivity.
Qed.

(** X11. A time that a commit stores is the stripped text of the time
    field: it is not empty, it has no white space at either end, and
    stripping it again gives it back. *)
Theorem stored_time_is_stripped (w : DialogCalcOptMap) (t : string) :
  dict_get (build_remote_opts w) "time" = Some (VStr t) ->
  t = py_strip (lineEdit_time w) /\
  t <> EmptyString /\
  outer_space_free t = true /\
  py_strip t = t.
Proof.
  rewrite build_remote_opts_time.
  destruct (checkBox_time w && negb (blank (lineEdit_time w))) eqn:E;
    [|discriminate].
  intros [= <-]. split; [reflexivity|].
  apply andb_true_iff in E as [_ E]. rewrite <- py_strip_blank in E.
  split; [now apply py_bool_str_true|].
  split; [apply py_strip_outer_space_free | apply py_strip_twice].
Qed.

(** The sample dialog with white space around the time. *)
Lemma stored_time_is_stripped_witness :
  dict_get (build_remote_opts (dialog_sample "  30:00 " "True")) "time"
  = Some (VStr "30:00") /\
  "30:00" = py_strip "  30:00 " /\ py_strip "30:00" = "30:00".
Proof.
  split; [reflexivity|].
  destruct (stored_time_is_stripped (dialog_sample "  30:00 " "True")
              "30:00" eq_refl) as (H1 & _ & _ & H2).
  split; [exact H1 | exact H2].
Defined.

(** ** The xy-aperture dialog *)

Section XYAperFacts.
Variable float : string -> option pyfloat.

Lemma xy_aper_frame (w : XYAper.widgets) :
  frame_stmt (keys_read DialogCalcOptXYAper) (XYAper.update_opt_dict float w).
Proof. unfold XYAper.update_opt_dict, float_of. simpl. frame_steps. Qed.

(** X12. A commit of the xy-aperture dialog, whether it returns or raises,
    leaves alone every key of the option set other than the six the dialog
    reads; [remote_opts] in particular is never written nor removed. *)
Theorem xy_aper_commit_keeps_other_keys (w : XYAper.widgets)
    (r : dialog_refs) (k : string) :
  ~ In k (keys_read DialogCalcOptXYAper) ->
  dict_get (opt_dict_of (snd (XYAper.update_opt_dict float w r))) k
  = dict_get (opt_dict_of r) k.
Proof. intros Hk. now apply xy_aper_frame. Qed.

(** X13. A commit of the xy-aperture dialog returns exactly when its two
    aperture texts parse, raises [ValueError] otherwise, and when it returns
    the six keys hold the values of the widgets and the new name is the
    text of the name field. *)
Theorem xy_aper_commit_stores (w : XYAper.widgets) (r : dialog_refs) :
  match XYAper.field_values float w with
  | Some kvs =>
      exists r',
        XYAper.update_opt_dict float w r = (Ok tt, r') /\
        names_new r' = Some (XYAper.lineEdit_opt_set_name w) /\
        dict_keys kvs = keys_read DialogCalcOptXYAper /\
        forall k v, In (k, v) kvs -> dict_get (opt_dict_of r') k = Some v
  | None =>
      fst (XYAper.update_opt_dict float w r) = Raise ValueError /\
      names_new (snd (XYAper.update_opt_dict float w r))
      = Some (XYAper.lineEdit_opt_set_name w)
  end.
Proof.
  unfold XYAper.field_values, XYAper.update_opt_dict.
  cbv [mbind stmt_bind set_new_name set_opt write float_of read option_bind].
  destruct (float (XYAper.lineEdit_abs_xmax w)) as [x|]; [|now split].
  destruct (float (XYAper.lineEdit_abs_ymax w)) as [y|]; [|now split].
  eexists. split; [reflexivity|]. split; [reflexivity|].
  split; [reflexivity|]. intros k v Hin.
  set (kvs := [("n_turns", _); ("abs_xmax", _); ("abs_ymax", _);
               ("ini_ndiv", _); ("n_lines", _); ("neg_y_search", _)]) in *.
  change (dict_get (dict_update (opt_dict_of r) kvs) k = Some v).
  apply dict_update_get_assigned; [|exact Hin].
  apply (keys_read_NoDup DialogCalcOptXYAper).
Qed.

End XYAperFacts.

(** A commit of the xy-aperture dialog on an option set that has a
    [remote_opts] entry: the entry stays. *)
Lemma xy_aper_commit_keeps_other_keys_witness :
  ~ In "remote_opts" (keys_read DialogCalcOptXYAper) /\
  dict_get
    (opt_dict_of (snd (XYAper.update_opt_dict float_sample xy_aper_sample
                         refs_sample_xy_aper))) "remote_opts"
  = Some (VDict [("ntasks", VInt 4)]).
Proof.
  assert (H : ~ In "remote_opts" (keys_read DialogCalcOptXYAper))
    by apply keys_read_not_remote.
  split; [exact H|].
  exact (xy_aper_commit_keeps_other_keys float_sample xy_aper_sample
           refs_sample_xy_aper "remote_opts" H).
Defined.

(** ** Errors of the edit handler *)

(** Which calculation types have an editor. *)
Lemma dialog_for_cases (calc_type : string) :
  match dialog_for calc_type with
  | Ok _ =>
      In calc_type ["xy_aper"; "fmap_xy"; "cmap_xy"; "fmap_px"; "cmap_px"]
  | Raise NotImplementedError =>
      In calc_type ["tswa"; "nonlin_chrom"; "mom_aper"]
  | Raise ValueError => ~ In calc_type all_nonlin_calc_types
  | Raise KeyError => False
  end.
Proof.
  unfold dialog_for.
  repeat match goal with
         | |- context [String.eqb calc_type ?s] =>
             destruct (String.eqb_spec calc_type s) as [->|?]
         end; simpl; try tauto.
  intuition congruence.
Qed.




(** ** Seeded option sets and their editors *)

(** X15. Every seeded option set that has an editor has every key that the
    constructor of its dialog reads: opening the editor on a freshly seeded
    catalog never raises [KeyError]. *)
Theorem seeded_sets_have_dialog_keys (calc_type name : string)
    (dialog : dialog_class) (opts : opt_dict) :
  dialog_for calc_type = Ok dialog ->
  get_opt_set default_calc_opts calc_type name = Ok opts ->
  forall key, In key (keys_read dialog) -> dict_mem opts key = true.
Proof.
  intros Hdlg Hget key Hkey.
  pose proof (dialog_for_cases calc_type) as Hk. rewrite Hdlg in Hk.
  simpl in Hk.
  repeat (destruct Hk as [<-|Hk];
    [ injection Hdlg as <-; rewrite get_opt_set_run in Hget;
      match type of Hget with
      | context [dict_get default_calc_opts ?k] =>
          let d := fresh "d" in
          set (d := dict_get default_calc_opts k) in Hget;
          vm_compute in d; subst d
      end;
      cbn [dict_get or_KeyError] in Hget;
      repeat match type of Hget with
             | context [if String.eqb ?a name then _ else _] =>
                 destruct (String.eqb a name)
             end;
      try discriminate Hget; injection Hget as <-;
      simpl in Hkey;
      repeat (destruct Hkey as [<-|Hkey]; [reflexivity|]);
      destruct Hkey
    | ]).
  destruct Hk.
Qed.

(** The seeded [cmap_px] "test" set and the key [ndelta]. *)
Lemma seeded_sets_have_dialog_keys_witness :
  dialog_for "cmap_px" = Ok DialogCalcOptMap_px /\
  In "ndelta" (keys_read DialogCalcOptMap_px) /\
  dict_mem (dict_set (dict_update fmap_px_production
                        [("nx", VInt 21); ("ny", VInt 21)])
              "n_turns" (VInt 128)) "ndelta" = true.
Proof.
  split; [reflexivity|].
  assert (H : In "ndelta" (keys_read DialogCalcOptMap_px))
    by (simpl; tauto).
  split; [exact H|].
  exact (seeded_sets_have_dialog_keys "cmap_px" "test" DialogCalcOptMap_px
           _ eq_refl eq_refl "ndelta" H).
Defined.

(** ** The three families of check boxes *)

Section FamilyLoops.
Variables (f : family) (checked : bool).

(** The loop of a [change_all_...] slot: inside the family, a box in the
    list takes the new state and a box outside keeps its own. *)
Lemma setChecked_loop_other (l : list string) (st : check_boxes)
    (k : string) :
  ~ In k l ->
  boxes_of f (fold_left (setChecked f checked) l st) !! k
  = boxes_of f st !! k.
Proof.
  revert st. induction l as [|c l IH]; intros st Hk; simpl; [reflexivity|].
  rewrite IH by (intros H; apply Hk; now right).
  assert (Hne : c <> k) by (intros ->; apply Hk; now left).
  destruct f; simpl; now apply lookup_insert_ne.
Qed.

Lemma setChecked_loop_member (l : list string) (st : check_boxes)
    (k : string) :
  In k l ->
  boxes_of f (fold_left (setChecked f checked) l st) !! k = Some checked.
Proof.
  revert st. induction l as [|c l IH]; intros st Hk; simpl; [destruct Hk|].
  destruct (in_dec String.string_dec k l) as [Hl|Hl]; [now apply IH|].
  rewrite setChecked_loop_other by exact Hl.
  destruct Hk as [->|Hk]; [|contradiction].
  destruct f; simpl; apply lookup_insert_eq.
Qed.

(** The loop writes nothing else: not the boxes of another family, not an
    [..._all] box, not an enabled state. *)
Lemma setChecked_loop_frame (l : list string) (st : check_boxes) :
  let st' := fold_left (setChecked f checked) l st in
  (forall g, g <> f -> boxes_of g st' = boxes_of g st) /\
  (forall g, all_box_of g st' = all_box_of g st) /\
  enabled_nonlin_recalc st' = enabled_nonlin_recalc st /\
  enabled_nonlin_replot st' = enabled_nonlin_replot st.
Proof.
  revert st. induction l as [|c l IH]; intros st; simpl; [auto|].
  destruct (IH (setChecked f checked st c)) as (H1 & H2 & H3 & H4).
  repeat split.
  - intros g Hg. rewrite (H1 g Hg). destruct f, g; try reflexivity;
      congruence.
  - intros g. rewrite H2. destruct f, g; reflexivity.
  - rewrite H3. destruct f; reflexivity.
  - rewrite H4. destruct f; reflexivity.
Qed.

End FamilyLoops.

(** The three [change_all_...] slots are this loop over the calculation
    types. *)
Lemma change_all_is_loop (f : family) (st : check_boxes) (checked : bool) :
  match f with
  | FInclude => change_all_nonlin_calc_type_checkbox_states_include
  | FRecalc => change_all_nonlin_calc_type_checkbox_states_recalc
  | FReplot => change_all_nonlin_calc_type_checkbox_states_replot
  end st checked
  = fold_left (setChecked f checked) all_nonlin_calc_types st.
Proof. destruct f; reflexivity. Qed.

Lemma clicked_other_families (st : check_boxes) (b : box)
    (checked : bool) (g : family) :
  family_of b <> g ->
  boxes_of g (clicked st b checked) = boxes_of g st /\
  all_box_of g (clicked st b checked) = all_box_of g st.
Proof.
  destruct b as [k|k|k| | |], g; simpl family_of; intros H;
    try congruence; unfold clicked;
    unfold uncheck_all_include, uncheck_all_recalc, uncheck_all_replot;
    destruct checked; split; reflexivity.
Qed.

(** X16. A click on a box writes nothing in the other two families:
    their per-type boxes and their [..._all] box are as they were. *)
Theorem clicked_keeps_other_families (st : check_boxes) (b : box)
    (checked : bool) (g : family) :
  family_of b <> g ->
  boxes_of g (clicked st b checked) = boxes_of g st /\
  all_box_of g (clicked st b checked) = all_box_of g st.
Proof. apply clicked_other_families. Qed.

(** A click on a recalc box of the sample window and the include family. *)
Lemma clicked_keeps_other_families_witness :
  family_of (Recalc "tswa") <> FInclude /\
  boxes_of FInclude
    (clicked (uniform_boxes true true false) (Recalc "tswa") false)
  = boxes_of FInclude (uniform_boxes true true false).
Proof.
  assert (H : family_of (Recalc "tswa") <> FInclude) by discriminate.
  split; [exact H|].
  exact (proj1 (clicked_keeps_other_families
                  (uniform_boxes true true false) (Recalc "tswa") false
                  FInclude H)).
Defined.

(** What a click does inside its own family. *)
Lemma clicked_own_family (st : check_boxes) (b : box) (checked : bool)
    (k : string) :
  all_box_of (family_of b) (clicked st b checked)
  = match b with
    | Include _ | Recalc _ | Replot _ =>
        checked && all_box_of (family_of b) st
    | _ => checked
    end /\
  boxes_of (family_of b) (clicked st b checked) !! k
  = match b with
    | Include k' | Recalc k' | Replot k' =>
        if decide (k' = k) then Some checked
        else boxes_of (family_of b) st !! k
    | _ =>
        if in_dec String.string_dec k all_nonlin_calc_types
        then Some checked else boxes_of (family_of b) st !! k
    end.
Proof.
  destruct b as [k'|k'|k'| | |]; simpl family_of; unfold clicked.
  - unfold uncheck_all_include. destruct checked; simpl;
      (split; [reflexivity | apply lookup_insert]).
  - unfold uncheck_all_recalc. destruct checked; simpl;
      (split; [reflexivity | apply lookup_insert]).
  - unfold uncheck_all_replot. destruct checked; simpl;
      (split; [reflexivity | apply lookup_insert]).
  - split.
    + exact (proj1 (proj2 (setChecked_loop_frame FInclude checked
                             all_nonlin_calc_types
                             (with_include_all checked st))) FInclude).
    + destruct (in_dec String.string_dec k all_nonlin_calc_types) as [H|H].
      * exact (setChecked_loop_member FInclude checked _ _ k H).
      * exact (setChecked_loop_other FInclude checked _
                 (with_include_all checked st) k H).
  - split.
    + exact (proj1 (proj2 (setChecked_loop_frame FRecalc checked
                             all_nonlin_calc_types
                             (with_recalc_all checked st))) FRecalc).
    + destruct (in_dec String.string_dec k all_nonlin_calc_types) as [H|H].
      * exact (setChecked_loop_member FRecalc checked _ _ k H).
      * exact (setChecked_loop_other FRecalc checked _
                 (with_recalc_all checked st) k H).
  - split.
    + exact (proj1 (proj2 (setChecked_loop_frame FReplot checked
                             all_nonlin_calc_types
                             (with_replot_all checked st))) FReplot).
    + destruct (in_dec String.string_dec k all_nonlin_calc_types) as [H|H].
      * exact (setChecked_loop_member FReplot checked _ _ k H).
      * exact (setChecked_loop_other FReplot checked _
                 (with_replot_all checked st) k H).
Qed.

(** One signal keeps the [..._all] box of every family sound. *)
Lemma clicked_all_box_sound (f : family) (st : check_boxes) (b : box)
    (checked : bool) :
  all_box_sound f st -> all_box_sound f (clicked st b checked).
Proof.
  intros Hst Hall k Hk.
  destruct (decide (family_of b = f)) as [<-|Hne].
  - destruct (clicked_own_family st b checked k) as [Ea Eb].
    rewrite Ea in Hall. rewrite Eb.
    destruct b as [k'|k'|k'| | |];
      try (apply andb_true_iff in Hall as [-> Hall];
           destruct (decide (k' = k)); [reflexivity | now apply Hst]);
      subst checked;
      now destruct (in_dec String.string_dec k all_nonlin_calc_types).
  - destruct (clicked_other_families st b checked f Hne) as [Eb Ea].
    rewrite Ea in Hall. rewrite Eb. now apply Hst.
Qed.

(** X17. In each of the three families (include, recalc, replot), after
    every call of a run of [clicked] signals, the [..._all] box is checked
    only if the box of every calculation type in the family is checked. *)
Theorem all_box_sound_after_every_call (f : family) (st : check_boxes)
    (evs : list (box * bool)) :
  all_box_sound f st -> all_box_sound f (run_clicked st evs).
Proof.
  revert st. unfold run_clicked.
  induction evs as [|[b checked] evs IH]; intros st Hst; simpl; auto.
  apply IH. now apply clicked_all_box_sound.
Qed.

(** The replot family of the sample window, on a run of three signals. *)
Lemma all_box_sound_after_every_call_witness :
  all_box_sound FReplot (uniform_boxes true true true) /\
  all_box_sound FReplot
    (run_clicked (uniform_boxes true true true)
       [(Replot "tswa", false); (Include "fmap_xy", false);
        (ReplotAll, true)]).
Proof.
  assert (H : all_box_sound FReplot (uniform_boxes true true true)).
  { intros _ k Hk. simpl in Hk.
    repeat (destruct Hk as [<-|Hk]; [reflexivity|]). destruct Hk. }
  split; [exact H|].
  exact (all_box_sound_after_every_call FReplot _ _ H).
Defined.

(** The enabled states after one signal: only the include box of a
    calculation type writes them, and only those of its own type. *)
Lemma clicked_enabled (st : check_boxes) (b : box) (checked : bool) :
  let st' := clicked st b checked in
  match b with
  | Include k =>
      enabled_nonlin_recalc st' = <[k := checked]> (enabled_nonlin_recalc st)
      /\ enabled_nonlin_replot st'
         = <[k := checked]> (enabled_nonlin_replot st)
  | _ =>
      enabled_nonlin_recalc st' = enabled_nonlin_recalc st /\
      enabled_nonlin_replot st' = enabled_nonlin_replot st
  end.
Proof.
  destruct b as [k'|k'|k'| | |]; simpl; unfold clicked;
    unfold uncheck_all_include, uncheck_all_recalc, uncheck_all_replot;
    destruct checked; split; reflexivity.
Qed.

(** X18. A click on any box other than include-all keeps the recalc and
    replot boxes of every calculation type enabled exactly when its include
    box is checked. *)
Theorem enabled_follows_include_kept (st : check_boxes) (b : box)
    (checked : bool) :
  enabled_follows_include st ->
  b <> IncludeAll ->
  enabled_follows_include (clicked st b checked).
Proof.
  intros Hst Hb k Hk. destruct (Hst k Hk) as [H1 H2].
  pose proof (clicked_enabled st b checked) as He. cbv zeta in He.
  destruct b as [k'|k'|k'| | |]; try congruence; destruct He as [-> ->].
  - destruct (clicked_own_family st (Include k') checked k) as [_ E].
    cbn [family_of boxes_of] in E. rewrite E, !lookup_insert.
    destruct (decide (k' = k)); auto.
  - destruct (clicked_other_families st (Recalc k') checked FInclude
                ltac:(discriminate)) as [E _].
    cbn [boxes_of] in E. rewrite E. auto.
  - destruct (clicked_other_families st (Replot k') checked FInclude
                ltac:(discriminate)) as [E _].
    cbn [boxes_of] in E. rewrite E. auto.
  - destruct (clicked_other_families st RecalcAll checked FInclude
                ltac:(discriminate)) as [E _].
    cbn [boxes_of] in E. rewrite E. auto.
  - destruct (clicked_other_families st ReplotAll checked FInclude
                ltac:(discriminate)) as [E _].
    cbn [boxes_of] in E. rewrite E. auto.
Qed.

(** A click on the include box of [tswa] in the sample window. *)
Lemma enabled_follows_include_kept_witness :
  enabled_follows_include (uniform_boxes true true true) /\
  Include "tswa" <> IncludeAll /\
  enabled_follows_include
    (clicked (uniform_boxes true true true) (Include "tswa") false).
Proof.
  assert (H : enabled_follows_include (uniform_boxes true true true)).
  { intros k Hk. simpl in Hk.
    repeat (destruct Hk as [<-|Hk]; [split; reflexivity|]). destruct Hk. }
  split; [exact H|]. split; [discriminate|].
  apply (enabled_follows_include_kept _ _ _ H). discriminate.
Defined.

(** X19. A click on include-all writes no enabled state: if it changes the
    include box of some calculation type, the recalc and replot boxes of
    that type are afterwards enabled although the include box is unchecked,
    or disabled although it is checked. *)
Theorem include_all_breaks_enabled (st : check_boxes) (checked : bool)
    (k : string) :
  enabled_follows_include st ->
  In k all_nonlin_calc_types ->
  checkBox_nonlin_include st !! k = Some (negb checked) ->
  let st' := clicked st IncludeAll checked in
  checkBox_nonlin_include st' !! k = Some checked /\
  enabled_nonlin_recalc st' !! k = Some (negb checked) /\
  enabled_nonlin_replot st' !! k = Some (negb checked) /\
  ~ enabled_follows_include st'.
Proof.
  intros Hst Hk Hinc st'. destruct (Hst k Hk) as [H1 H2].
  destruct (clicked_enabled st IncludeAll checked) as [E1 E2].
  destruct (clicked_own_family st IncludeAll checked k) as [_ E].
  cbn [family_of boxes_of] in E.
  destruct (in_dec String.string_dec k all_nonlin_calc_types);
    [|contradiction].
  subst st'. rewrite E, E1, E2, H1, H2, Hinc.
  repeat split. intros Hbad. destruct (Hbad k Hk) as [Hb _].
  rewrite E, E1, H1, Hinc in Hb. destruct checked; discriminate.
Qed.

(** Unchecking include-all in the sample window with everything checked. *)
Lemma include_all_breaks_enabled_witness :
  enabled_follows_include (uniform_boxes true true true) /\
  In "tswa" all_nonlin_calc_types /\
  checkBox_nonlin_include
    (clicked (uniform_boxes true true true) IncludeAll false) !! "tswa"
  = Some false /\
  enabled_nonlin_recalc
    (clicked (uniform_boxes true true true) IncludeAll false) !! "tswa"
  = Some true.
Proof.
  assert (H : enabled_follows_include (uniform_boxes true true true)).
  { intros k Hk. simpl in Hk.
    repeat (destruct Hk as [<-|Hk]; [split; reflexivity|]). destruct Hk. }
  assert (Hk : In "tswa" all_nonlin_calc_types)
    by (simpl; do 5 right; now left).
  split; [exact H|]. split; [exact Hk|].
  destruct (include_all_breaks_enabled (uniform_boxes true true true)
              false "tswa" H Hk eq_refl) as (E1 & E2 & _).
  split; [exact E1 | exact E2].
Defined.

(** ** Combo boxes *)

Lemma find_from_absent (i : Z) (l : list string) (text : string) :
  ~ In text l -> find_from i l text = -1.
Proof.
  revert i. induction l as [|x l IH]; intros i H; simpl; [reflexivity|].
  destruct (String.eqb_spec x text) as [->|Hne].
  - exfalso. apply H. now left.
  - apply IH. intros Hin. apply H. now right.
Qed.

Lemma find_from_present (i : Z) (l : list string) (text : string) :
  In text l ->
  i <= find_from i l text < i + Z.of_nat (length l) /\
  nth (Z.to_nat (find_from i l text - i)) l EmptyString = text.
Proof.
  revert i. induction l as [|x l IH]; intros i H; [destruct H|].
  simpl find_from. destruct (String.eqb_spec x text) as [->|Hne].
  - rewrite Z.sub_diag. simpl. split; [lia | reflexivity].
  - destruct H as [H|H]; [congruence|].
    destruct (IH (i + 1) H) as [Hr Hn]. split; [simpl length; lia|].
    replace (Z.to_nat (find_from (i + 1) l text - i))
      with (S (Z.to_nat (find_from (i + 1) l text - (i + 1)))) by lia.
    exact Hn.
Qed.

Lemma refresh_selector_result (obj : QComboBox) (current_text : string)
    (names : list string) :
  let obj' := refresh_selector obj current_text names in
  items obj' = names /\
  (In current_text names ->
   currentText obj' = current_text /\
   valid_index obj' (currentIndex obj') = true) /\
  (~ In current_text names ->
   currentIndex obj' = -1 /\ currentText obj' = EmptyString).
Proof.
  unfold refresh_selector, setCurrentIndex, currentText, itemText,
    valid_index, findText, addItems, clear. simpl.
  split; [reflexivity|]. split.
  - intros Hin. destruct (find_from_present 0 names current_text Hin)
      as [Hr Hn].
    rewrite Z.sub_0_r in Hn.
    assert (E : (0 <=? find_from 0 names current_text)
                && (find_from 0 names current_text
                    <? Z.of_nat (length names)) = true).
    { apply andb_true_iff. split; [apply Z.leb_le | apply Z.ltb_lt]; lia. }
    rewrite E. simpl. rewrite E. auto.
  - intros Hout. rewrite (find_from_absent 0 names current_text Hout).
    simpl. auto.
Qed.

(** X20. Refreshing a name selector leaves it with exactly the names given,
    in their order; it shows the text asked for when that is one of the
    names, and has no current item (and shows the empty text) when it is
    not. *)
Theorem refresh_selector_shows (obj : QComboBox) (current_text : string)
    (names : list string) :
  let obj' := refresh_selector obj current_text names in
  items obj' = names /\
  (In current_text names ->
   currentText obj' = current_text /\
   valid_index obj' (currentIndex obj') = true) /\
  (~ In current_text names ->
   currentIndex obj' = -1 /\ currentText obj' = EmptyString).
Proof. apply refresh_selector_result. Qed.

(** X21. After a renaming of [old] to a different name [new] that went
    through, the selector of the calculation type lists the names of the
    catalog, in the catalog's order; if it showed [old] it shows [new], and
    if it showed another name it still shows that name. *)
Theorem rename_in_selector_follows (obj : QComboBox) (old new : string)
    (names : list string) :
  old <> new ->
  In (currentText obj) names ->
  let names' := remove_key (add_key names new) old in
  let obj' := rename_in_selector obj old new names' in
  items obj' = names' /\
  currentText obj' = (if String.eqb (currentText obj) old then new
                      else currentText obj).
Proof.
  intros Hne Hcur names' obj'. subst obj'. unfold rename_in_selector.
  set (t := if String.eqb (currentText obj) old then new
            else currentText obj).
  destruct (refresh_selector_result obj t names') as (Hi & Hin & _).
  split; [exact Hi|]. apply Hin. subst names' t.
  apply remove_key_In. destruct (String.eqb_spec (currentText obj) old).
  - split; [|congruence]. apply add_key_In. now right.
  - split; [|assumption]. apply add_key_In. now left.
Qed.

(** A selector that shows "production" while it is renamed to "final". *)
Lemma rename_in_selector_follows_witness :
  "production" <> "final" /\
  In (currentText {| items := ["production"; "test"]; currentIndex := 0 |})
    ["production"; "test"] /\
  currentText
    (rename_in_selector
       {| items := ["production"; "test"]; currentIndex := 0 |}
       "production" "final" ["test"; "final"]) = "final".
Proof.
  assert (H : In (currentText {| items := ["production"; "test"];
                                 currentIndex := 0 |})
                ["production"; "test"]) by (now left).
  split; [discriminate|]. split; [exact H|].
  refine (proj2 (rename_in_selector_follows
                   {| items := ["production"; "test"]; currentIndex := 0 |}
                   "production" "final" ["production"; "test"] _ H)).
  discriminate.
Defined.

(** A selector that is empty, as before the first refresh: the refresh
    leaves it without a current item. *)
Lemma refresh_selector_shows_witness :
  items (update_selector {| items := []; currentIndex := -1 |}
           ["production"; "test"]) = ["production"; "test"] /\
  currentIndex (update_selector {| items := []; currentIndex := -1 |}
                  ["production"; "test"]) = -1.
Proof.
  destruct (refresh_selector_shows {| items := []; currentIndex := -1 |}
              EmptyString ["production"; "test"]) as (Hi & _ & Hout).
  split; [exact Hi|]. apply Hout. simpl. intuition discriminate.
Defined.

Lemma insert_remove_nth (n : nat) (x : string) (l : list string) :
  (n < length l)%nat -> insert_nth n x (remove_nth n l) = <[n := x]> l.
Proof.
  revert n. induction l as [|y l IH]; intros n Hn; simpl in Hn; [lia|].
  destruct n as [|n]; simpl; [reflexivity|].
  destruct l as [|z l]; [simpl in Hn; lia|].
  rewrite <- IH by (simpl in *; lia). reflexivity.
Qed.

Lemma nth_list_insert (n : nat) (x : string) (l : list string) :
  (n < length l)%nat -> nth n (<[n := x]> l) EmptyString = x.
Proof.
  revert n. induction l as [|y l IH]; intros n Hn; simpl in Hn; [lia|].
  destruct n as [|n]; simpl; [reflexivity|]. apply IH. lia.
Qed.

Lemma count_occ_list_insert (n : nat) (x : string) (l : list string) :
  (n < length l)%nat -> nth n l EmptyString <> x ->
  count_occ String.string_dec (<[n := x]> l) x
  = S (count_occ String.string_dec l x).
Proof.
  revert n. induction l as [|y l IH]; intros n Hn Hx; simpl in Hn; [lia|].
  destruct n as [|n]; simpl in *.
  - destruct (String.string_dec x x); [|congruence].
    destruct (String.string_dec y x); [congruence | reflexivity].
  - rewrite IH by (auto; lia).
    destruct (String.string_dec y x); reflexivity.
Qed.

(** The editor's combo box after the renaming, when it has a current
    item. *)
Lemma rename_in_editor_result (editor : QComboBox) (new : string) :
  valid_index editor (currentIndex editor) = true ->
  rename_in_editor editor new =
  {| items := <[Z.to_nat (currentIndex editor) := new]> (items editor);
     currentIndex := currentIndex editor |}.
Proof.
  intros Hv. unfold rename_in_editor, removeItem. rewrite Hv.
  unfold valid_index in Hv. apply andb_true_iff in Hv as [H0 H1].
  apply Z.leb_le in H0. apply Z.ltb_lt in H1.
  set (i := currentIndex editor) in *. set (l := items editor) in *.
  unfold setCurrentIndex, insertItem, valid_index. simpl.
  rewrite Z.max_r by lia.
  rewrite insert_remove_nth by lia. f_equal.
  rewrite length_insert.
  assert (E : (0 <=? i) && (i <? Z.of_nat (length l)) = true).
  { apply andb_true_iff. split; [apply Z.leb_le | apply Z.ltb_lt]; lia. }
  now rewrite E.
Qed.

(** X22. After a renaming, the editor's combo box has the new name in the
    place of its current item, which stays the current one; the other
    items are as they were. If the new name was already an item, the combo
    box now lists it twice, while the catalog has it once. *)
Theorem rename_in_editor_replaces (editor : QComboBox) (new : string) :
  valid_index editor (currentIndex editor) = true ->
  let editor' := rename_in_editor editor new in
  items editor'
  = <[Z.to_nat (currentIndex editor) := new]> (items editor) /\
  currentIndex editor' = currentIndex editor /\
  currentText editor' = new /\
  (List.NoDup (items editor) -> In new (items editor) ->
   currentText editor <> new ->
   count_occ String.string_dec (items editor') new = 2%nat).
Proof.
  intros Hv editor'. subst editor'.
  rewrite (rename_in_editor_result editor new Hv). simpl.
  assert (Hlt : (Z.to_nat (currentIndex editor) < length (items editor))%nat).
  { unfold valid_index in Hv. apply andb_true_iff in Hv as [H0 H1].
    apply Z.leb_le in H0. apply Z.ltb_lt in H1. lia. }
  split; [reflexivity|]. split; [reflexivity|]. split.
  - unfold currentText, itemText, valid_index. simpl.
    rewrite length_insert. unfold valid_index in Hv. rewrite Hv.
    now apply nth_list_insert.
  - intros Hnd Hin Hcur. rewrite count_occ_list_insert.
    + f_equal. apply NoDup_count_occ'; assumption.
    + exact Hlt.
    + unfold currentText, itemText in Hcur. now rewrite Hv in Hcur.
Qed.

(** The editor showing "production", renamed onto "test". *)
Lemma rename_in_editor_replaces_witness :
  valid_index {| items := ["production"; "test"]; currentIndex := 0 |} 0
  = true /\
  items (rename_in_editor
           {| items := ["production"; "test"]; currentIndex := 0 |} "test")
  = ["test"; "test"].
Proof.
  split; [reflexivity|].
  exact (proj1 (rename_in_editor_replaces
                  {| items := ["production"; "test"]; currentIndex := 0 |}
                  "test" eq_refl)).
Defined.

(** ** Reopening the map dialog *)

Lemma select_text_result (cb : QComboBox) (text : string) :
  select_text cb text
  = if existsb (String.eqb text) (items cb) then text else EmptyString.
Proof.
  unfold select_text, currentText, itemText, setCurrentIndex, valid_index,
    findText. simpl.
  destruct (existsb (String.eqb text) (items cb)) eqn:E.
  - apply existsb_eqb_In in E.
    destruct (find_from_present 0 (items cb) text E) as [Hr Hn].
    rewrite Z.sub_0_r in Hn.
    assert (Hv : (0 <=? find_from 0 (items cb) text)
                 && (find_from 0 (items cb) text
                     <? Z.of_nat (length (items cb))) = true).
    { apply andb_true_iff. split; [apply Z.leb_le | apply Z.ltb_lt]; lia. }
    rewrite Hv. simpl. now rewrite Hv.
  - rewrite find_from_absent; [reflexivity|].
    intros H. apply existsb_eqb_In in H. congruence.
Qed.

(** X23. An option set stored with a diagnostic mode, opened in the map
    dialog and accepted as it opens, is stored with [True] if the text of
    the stored value ("True" or "False") is an item of the selector, and
    with [False] if it is not. With both texts among the items, a stored
    [False] comes back as [True]. *)
Theorem reopen_diag_mode (partitions diag_modes : QComboBox) (lo hi : Z)
    (ui w' : DialogCalcOptMap) (d : opt_dict) (remote_opts : pydict value)
    (b : bool) :
  dict_get d "remote_opts" = Some (VDict remote_opts) ->
  dict_get remote_opts "diag_mode" = Some (VBool b) ->
  init_remote_widgets partitions diag_modes lo hi ui d = Some w' ->
  groupBox_remote_opts w' = true /\
  checkBox_diag_mode w' = true /\
  comboBox_diag_mode w' = select_text diag_modes (py_str_bool b) /\
  dict_get (build_remote_opts w') "diag_mode"
  = Some (VBool (existsb (String.eqb (py_str_bool b)) (items diag_modes)))
  /\ (b = false -> In "False" (items diag_modes) ->
      dict_get (build_remote_opts w') "diag_mode" = Some (VBool true)).
Proof.
  intros Hd Hb Hinit. unfold init_remote_widgets in Hinit.
  rewrite Hd, Hb in Hinit. cbv [mbind option_bind] in Hinit.
  destruct (match dict_get remote_opts "partition" with
            | Some (VStr s) => _ | Some _ => _ | None => _ end)
    as [p|]; [|discriminate].
  destruct (match dict_get remote_opts "ntasks" with
            | Some (VInt n) => _ | Some _ => _ | None => _ end)
    as [n|]; [|discriminate].
  destruct (match dict_get remote_opts "time" with
            | Some (VStr s) => _ | Some _ => _ | None => _ end)
    as [t|]; [|discriminate].
  injection Hinit as <-.
  match goal with
  | |- groupBox_remote_opts ?w = _ /\ _ => set (w1 := w)
  end.
  assert (E : dict_get (build_remote_opts w1) "diag_mode"
              = Some (VBool (existsb (String.eqb (py_str_bool b))
                               (items diag_modes)))).
  { rewrite build_remote_opts_diag_mode. subst w1.
    cbn [checkBox_diag_mode comboBox_diag_mode fst snd].
    rewrite select_text_result.
    destruct (existsb (String.eqb (py_str_bool b)) (items diag_modes));
      [|reflexivity].
    now destruct b. }
  split; [reflexivity|]. split; [reflexivity|]. split; [reflexivity|].
  split; [exact E|].
  intros -> Hin. rewrite E.
  apply (existsb_eqb_In "False") in Hin. cbn [py_str_bool].
  now rewrite Hin.
Qed.

(** The sample dialog reopened on a set stored with [diag_mode] [False]. *)
Lemma reopen_diag_mode_witness :
  dict_get [("remote_opts", VDict [("diag_mode", VBool false)])]
    "remote_opts" = Some (VDict [("diag_mode", VBool false)]) /\
  dict_get [("diag_mode", VBool false)] "diag_mode" = Some (VBool false) /\
  exists w',
    init_remote_widgets partitions_sample diag_modes_sample 1 99
      (dialog_sample "30:00" "True")
      [("remote_opts", VDict [("diag_mode", VBool false)])] = Some w' /\
    dict_get (build_remote_opts w') "diag_mode" = Some (VBool true).
Proof.
  split; [reflexivity|]. split; [reflexivity|].
  eexists. split; [reflexivity|].
  refine (proj2 (proj2 (proj2 (proj2
            (reopen_diag_mode partitions_sample diag_modes_sample 1 99
               (dialog_sample "30:00" "True") _
               [("remote_opts", VDict [("diag_mode", VBool false)])]
               [("diag_mode", VBool false)] false
               eq_refl eq_refl eq_refl)))) eq_refl _).
  simpl. tauto.
Defined.

(** X24. An option set left by a commit of the map dialog with the remote
    options on can be opened again, and accepting it as it opens keeps
    which remote options there are and keeps the time. The task count
    comes back brought into the range of its spin box, the partition comes
    back only if it is an item of its selector (as the empty text if not). *)
Theorem reopen_keeps_remote_options (partitions diag_modes : QComboBox)
    (lo hi : Z) (ui w0 : DialogCalcOptMap) (d : opt_dict) :
  dict_get d "remote_opts" = Some (VDict (build_remote_opts w0)) ->
  exists w',
    init_remote_widgets partitions diag_modes lo hi ui d = Some w' /\
    groupBox_remote_opts w' = true /\
    dict_keys (build_remote_opts w') = dict_keys (build_remote_opts w0) /\
    dict_get (build_remote_opts w') "time"
    = dict_get (build_remote_opts w0) "time" /\
    dict_get (build_remote_opts w') "ntasks"
    = (if checkBox_ntasks w0
       then Some (VInt (setValue lo hi (spinBox_ntasks w0))) else None) /\
    dict_get (build_remote_opts w') "partition"
    = (if checkBox_partition w0
       then Some (VStr (select_text partitions (comboBox_partition w0)))
       else None).
Proof.
  intros Hd. unfold init_remote_widgets. rewrite Hd.
  destruct (build_remote_opts_entries w0) as (Hk0 & Hp0 & Hn0).
  rewrite Hk0, Hp0, Hn0, build_remote_opts_time, build_remote_opts_diag_mode.
  unfold remote_keys. cbv [mbind option_bind].
  assert (Htime : checkBox_time w0 && negb (blank (lineEdit_time w0)) = true
                  -> negb (blank (py_strip (lineEdit_time w0))) = true).
  { intros H. apply andb_true_iff in H as [_ H].
    rewrite <- py_strip_blank, py_strip_twice, py_strip_blank. exact H. }
  destruct (checkBox_partition w0), (checkBox_ntasks w0),
    (checkBox_time w0 && negb (blank (lineEdit_time w0))) eqn:Et,
    (checkBox_diag_mode w0);
    eexists; (split; [reflexivity|]); (split; [reflexivity|]);
    match goal with
    | |- context [build_remote_opts ?w] =>
        destruct (build_remote_opts_entries w) as (-> & -> & ->)
    end;
    rewrite !build_remote_opts_time;
    unfold remote_keys; cbn [checkBox_partition checkBox_ntasks
      checkBox_time checkBox_diag_mode lineEdit_time spinBox_ntasks
      comboBox_partition fst snd];
    try rewrite (Htime eq_refl);
    rewrite ?py_strip_twice; cbn [andb]; repeat split; reflexivity.
Qed.

(** The sample dialog, committed with every remote option on and opened
    again with task counts from 1 to 99. *)
Lemma reopen_keeps_remote_options_witness :
  dict_get
    [("remote_opts", VDict (build_remote_opts (dialog_sample "30:00" "True")))]
    "remote_opts"
  = Some (VDict (build_remote_opts (dialog_sample "30:00" "True"))) /\
  exists w',
    init_remote_widgets partitions_sample diag_modes_sample 1 99
      (dialog_sample "30:00" "True")
      [("remote_opts",
        VDict (build_remote_opts (dialog_sample "30:00" "True")))]
    = Some w' /\
    dict_keys (build_remote_opts w')
    = dict_keys (build_remote_opts (dialog_sample "30:00" "True")).
Proof.
  split; [reflexivity|].
  destruct (reopen_keeps_remote_options partitions_sample diag_modes_sample
              1 99 (dialog_sample "30:00" "True")
              (dialog_sample "30:00" "True")
              [("remote_opts",
                VDict (build_remote_opts (dialog_sample "30:00" "True")))]
              eq_refl) as (w' & Hinit & _ & Hkeys & _).
  exists w'. split; [exact Hinit | exact Hkeys].
Defined.

(** ** The remote-module warning *)

Lemma str_app_assoc (a b c : string) : (a +:+ b) +:+ c = a +:+ (b +:+ c).
Proof.
  induction a as [|x a IH]; [reflexivity|].
  change (String x ((a +:+ b) +:+ c) = String x (a +:+ (b +:+ c))).
  now rewrite IH.
Qed.

(** X25. Loading [pyelegant.remote] prints nothing exactly when
    [$PYELEGANT_REMOTE] is set and the import of its module either
    returned the module or raised an exception that is not an
    [ImportError]; the latter, and only it, leaves the module body. In
    every other case the output begins with the warning header and its
    last line ends with the notice that all commands will only be run
    locally. *)
Theorem remote_warning_shape (remote_name : string)
    (import_module : string -> Remote.import_result) :
  (Remote.run remote_name import_module = [] <->
   remote_name <> EmptyString /\
   (import_module remote_name = Remote.Imported \/
    import_module remote_name = Remote.OtherException)) /\
  (Remote.load remote_name import_module = None <->
   remote_name <> EmptyString /\
   import_module remote_name = Remote.OtherException) /\
  (Remote.run remote_name import_module <> [] ->
   hd EmptyString (Remote.run remote_name import_module) = Remote.header /\
   exists pre,
     List.last (Remote.run remote_name import_module) EmptyString
     = pre +:+ Remote.run_locally).
Proof.
  unfold Remote.run, Remote.load, Remote.warning.
  destruct (String.eqb_spec remote_name EmptyString) as [->|Hne]; simpl.
  - split; [split; [discriminate | intros [[] _]; reflexivity]|].
    split; [split; [discriminate | intros [[] _]; reflexivity]|].
    intros _. split; [reflexivity|]. now eexists.
  - destruct (import_module remote_name) as [|msg|]; simpl.
    + split; [tauto|]. split; [|congruence].
      split; [discriminate | intros [_ [=]]].
    + split; [split; [discriminate | intros [_ [[=]|[=]]]]|].
      split; [split; [discriminate | intros [_ [=]]]|].
      intros _. split; [reflexivity|].
      destruct msg as [|a msg]; simpl.
      * exists ("Invalid $PYELEGANT_REMOTE: '" +:+ remote_name +:+ "'. ").
        now rewrite !str_app_assoc.
      * destruct (_ || _); simpl; now exists EmptyString.
    + split; [tauto|]. split; [tauto|]. congruence.
Qed.

(** X26. The hint about missing parallel dependencies is printed exactly
    when the variable is set and the import failed with a message that
    has [mpi4py], [dill] or [qtpy] in it. *)
Theorem remote_warning_names_dependencies (remote_name : string)
    (import_module : string -> Remote.import_result) :
  In Remote.missing (Remote.run remote_name import_module) <->
  remote_name <> EmptyString /\
  exists msg,
    import_module remote_name = Remote.ImportError msg /\
    (Remote.contains "mpi4py" msg || Remote.contains "dill" msg
     || Remote.contains "qtpy" msg) = true.
Proof.
  unfold Remote.run, Remote.load, Remote.warning.
  destruct (String.eqb_spec remote_name EmptyString) as [->|Hne]; simpl.
  - split; [intros [H|[H|[]]]; discriminate H | intros [[] _]; reflexivity].
  - destruct (import_module remote_name) as [|msg|]; simpl.
    + split; [intros [] | intros [_ (m & [=] & _)]].
    + destruct msg as [|a msg].
      * simpl. split.
        -- intros [H|[H|[]]]; discriminate H.
        -- intros [_ (m & [= <-] & H)]. discriminate H.
      * cbn [Remote.truthy Remote.any_dep Remote.import_error existsb andb].
        rewrite orb_false_r, orb_assoc.
        destruct (_ || _) eqn:E.
        -- split; [intros _; split; [exact Hne|]; now exists (String a msg)|].
           intros _. simpl. tauto.
        -- split.
           ++ intros [H|[H|[H|[]]]]; discriminate H.
           ++ intros [_ (m & [= <-] & H)]. congruence.
    + split; [intros [] | intros [_ (m & [=] & _)]].
Qed.

(** X27. An import that fails with an empty message is reported as an
    invalid [$PYELEGANT_REMOTE], with no line about the module that could
    not be loaded: the empty message counts as no error. *)
Theorem remote_empty_import_message (remote_name : string)
    (import_module : string -> Remote.import_result) :
  remote_name <> EmptyString ->
  import_module remote_name = Remote.ImportError EmptyString ->
  Remote.run remote_name import_module
  = [Remote.header; Remote.invalid remote_name].
Proof.
  intros Hne Himp. unfold Remote.run, Remote.load, Remote.warning.
  apply String.eqb_neq in Hne. rewrite Hne, Himp. reflexivity.
Qed.

(** A remote module whose import fails without a message. *)
Lemma remote_empty_import_message_witness :
  "slurm" <> EmptyString /\
  Remote.run "slurm" (fun _ => Remote.ImportError EmptyString)
  = [Remote.header; Remote.invalid "slurm"].
Proof.
  split; [discriminate|].
  apply (remote_empty_import_message "slurm"
           (fun _ => Remote.ImportError EmptyString));
    [discriminate | reflexivity].
Defined.
